(** * qutebrowser: the tab abstraction ([qutebrowser/browser/browsertab.py])
      and the request-list steps of the integration tests
      ([tests/integration/features/conftest.py]).

    The Python code is embedded shallowly.  Methods that mutate [self]
    become computations in a small exception/state/log monad: the state is
    the object, the log collects what the method sends to the outside (Qt
    signal emissions, calls into other objects), and a raised exception
    keeps every mutation and emission that happened before the [raise]. *)

From Stdlib Require Import ZArith Lia Ascii Sorted SpecFloat.
From stdpp Require Import gmap strings list fin_maps.

(** ** Python exceptions and the method monad *)

Inductive PyExc : Type :=
| TypeError
| ValueError
| OverflowError
| KeyError.

Inductive result (A : Type) : Type :=
| Ok (a : A)
| Raise (e : PyExc).
Arguments Ok {A} a.
Arguments Raise {A} e.

Module Py.

(** [M S E A]: a method body over an object of type [S], sending
    effects of type [E], returning an [A] or raising. *)
Definition M (S E A : Type) : Type := S -> result A * S * list E.

Definition ret {S E A} (a : A) : M S E A := fun s => (Ok a, s, []).

Definition bind {S E A B} (m : M S E A) (k : A -> M S E B) : M S E B :=
  fun s =>
    match m s with
    | (Ok a, s1, out1) =>
        match k a s1 with
        | (r, s2, out2) => (r, s2, out1 ++ out2)
        end
    | (Raise e, s1, out1) => (Raise e, s1, out1)
    end.

Definition raise {S E A} (e : PyExc) : M S E A := fun s => (Raise e, s, []).
Definition get {S E} : M S E S := fun s => (Ok s, s, []).
Definition modify {S E} (f : S -> S) : M S E unit := fun s => (Ok tt, f s, []).
Definition send {S E} (e : E) : M S E unit := fun s => (Ok tt, s, [e]).

Definition outcome {S E A} (x : result A * S * list E) : result A := x.1.1.
Definition final {S E A} (x : result A * S * list E) : S := x.1.2.
Definition sent {S E A} (x : result A * S * list E) : list E := x.2.

End Py.

Declare Scope py_scope.
Delimit Scope py_scope with py.
Notation "x <- m ;; k" := (Py.bind m (fun x => k))
  (at level 100, m at next level, k at level 200, right associativity)
  : py_scope.
Notation "'do' m ;; k" := (Py.bind m (fun _ => k))
  (at level 100, m at next level, k at level 200, right associativity)
  : py_scope.

(** ** [usertypes] enumerations used by the tab *)

(** Modelled from the spec: [usertypes.ClickTarget] is declared in
    [qutebrowser/utils/usertypes.py], outside the two files embedded here.
    The members are the ones [browsertab.py] refers to:
    [ClickTarget.normal], [.tab], [.tab_bg], [.window]. *)
Module ClickTarget.
Inductive t : Type :=
| normal
| tab
| tab_bg
| window.
End ClickTarget.

#[global] Instance ClickTarget_eq_dec : EqDecision ClickTarget.t.
Proof. solve_decision. Defined.

(** Modelled from the spec: [usertypes.LoadStatus], declared next to
    [ClickTarget]; the members are those the tab assigns.  [name] is the
    [.name] attribute of a Python enum member. *)
Module LoadStatus.
Inductive t : Type :=
| none
| success
| success_https
| error
| warn
| loading.

Definition name (s : t) : string :=
  match s with
  | none => "none"
  | success => "success"
  | success_https => "success_https"
  | error => "error"
  | warn => "warn"
  | loading => "loading"
  end.
End LoadStatus.

#[global] Instance LoadStatus_eq_dec : EqDecision LoadStatus.t.
Proof. solve_decision. Defined.

(** The Python values a caller can hand to a setter that checks its
    argument with [isinstance]. *)
Inductive PyVal : Type :=
| PyNone
| PyBool (b : bool)
| PyInt (n : Z)
| PyStr (s : string)
| PyClickTarget (c : ClickTarget.t)
| PyLoadStatus (s : LoadStatus.t).

(** [isinstance(val, usertypes.LoadStatus)], with the member when it is one. *)
Definition as_LoadStatus (val : PyVal) : option LoadStatus.t :=
  match val with
  | PyLoadStatus s => Some s
  | _ => None
  end.

(** Python truthiness of what [title()] returns (a [str], or [None]). *)
Definition truthy (s : option string) : bool :=
  match s with
  | None => false
  | Some EmptyString => false
  | Some (String _ _) => true
  end.

(** ** [QUrl], as far as the tab looks at it *)

Record QUrl : Type := mkQUrl {
  isValid : bool;
  scheme : string;
  toDisplayString : string
}.

#[global] Instance QUrl_eq_dec : EqDecision QUrl.
Proof. solve_decision. Defined.

(** ** [TabData] *)

Module TabData.

Record t : Type := mk {
  keep_icon : bool;
  viewing_source : bool;
  inspector : option nat;
  open_target : ClickTarget.t;
  hint_target : option ClickTarget.t
}.

(** [TabData.__init__] *)
Definition __init__ : t :=
  {| keep_icon := false;
     viewing_source := false;
     inspector := None;
     open_target := ClickTarget.normal;
     hint_target := None |}.

Definition set_viewing_source (b : bool) (d : t) : t :=
  {| keep_icon := keep_icon d;
     viewing_source := b;
     inspector := inspector d;
     open_target := open_target d;
     hint_target := hint_target d |}.

Definition set_open_target (c : ClickTarget.t) (d : t) : t :=
  {| keep_icon := keep_icon d;
     viewing_source := viewing_source d;
     inspector := inspector d;
     open_target := c;
     hint_target := hint_target d |}.

Definition set_hint_target (h : option ClickTarget.t) (d : t) : t :=
  {| keep_icon := keep_icon d;
     viewing_source := viewing_source d;
     inspector := inspector d;
     open_target := open_target d;
     hint_target := h |}.

Definition combined_target (self : t) : ClickTarget.t :=
  match hint_target self with
  | Some h => h
  | None => open_target self
  end.

Definition _on_start_hinting (hint : ClickTarget.t) (self : t) : t :=
  set_hint_target (Some hint) self.

Definition _on_stop_hinting (self : t) : t :=
  set_hint_target None self.

End TabData.

(** ** What a tab sends to the rest of the browser *)

(** The [pyqtSignal]s of [AbstractTab] that the methods below emit. *)
Inductive Signal : Type :=
| load_started
| load_progress (perc : Z)
| load_finished (ok : bool)
| title_changed (title : string)
| load_status_changed (status : string)
| url_changed (u : QUrl)
| add_history_item (u requested : QUrl) (title : option string).

(** Calls into other objects of the application, in program order. *)
Inductive Effect : Type :=
| emit (s : Signal)
| message_error (win : nat) (msg : string)
| MainWindow_new (win : nat)
| MainWindow_show (win : nat)
| tabopen (win : nat) (u : QUrl) (background : bool).

(** ** [AbstractTab] *)

Module AbstractTab.

(** The attributes the methods of the base class read or write.  [W] is
    the backend widget ([QWebView] or [QWebEngineView]); [_widget] is
    [None] until [_set_widget].  The Qt helper objects created by
    [__init__] ([_layout], [_mouse_event_filter], the per-tab object
    registry) are not touched by any method below and are left out. *)
Record t (W : Type) : Type := mk {
  win_id : nat;
  tab_id : nat;
  data : TabData.t;
  _widget : option W;
  _progress : Z;
  _has_ssl_errors : bool;
  _load_status : LoadStatus.t
}.
Arguments mk {W}.
Arguments win_id {W}.
Arguments tab_id {W}.
Arguments data {W}.
Arguments _widget {W}.
Arguments _progress {W}.
Arguments _has_ssl_errors {W}.
Arguments _load_status {W}.

(** The methods that raise [NotImplementedError] in the base class and
    that [WebKitTab] and [WebEngineTab] override; the handlers below use
    [url()] and [title()]. *)
Class Impl (W : Type) : Type := {
  url : t W -> bool -> QUrl;
  title : t W -> option string
}.

(** The slots of a tab (and of its [data]) that Qt may invoke, in any
    order, once the tab is wired to its widget and hint manager. *)
Inductive Call : Type :=
| on_link_clicked (u : QUrl)
| on_url_changed (u : QUrl)
| on_load_started
| on_load_finished (ok : bool)
| on_history_trigger
| on_load_progress (perc : Z)
| on_ssl_errors
| on_start_hinting (hint : ClickTarget.t)
| on_stop_hinting.

Section Methods.
Context {W : Type} `{Impl W}.

(** [urlutils.get_errstring], which formats the error shown for an
    invalid link; and the [win_id] of the window that
    [mainwindow.MainWindow()] creates.  Both live outside this file. *)
Variable get_errstring : QUrl -> string -> string.
Variable MainWindow : unit -> nat.

Abbreviation Tab := (t W).
Abbreviation Meth := (Py.M Tab Effect).

Definition set_data (f : TabData.t -> TabData.t) (self : Tab) : Tab :=
  mk (win_id self) (tab_id self) (f (data self)) (_widget self)
     (_progress self) (_has_ssl_errors self) (_load_status self).

Definition set_progress (p : Z) (self : Tab) : Tab :=
  mk (win_id self) (tab_id self) (data self) (_widget self)
     p (_has_ssl_errors self) (_load_status self).

Definition set_has_ssl_errors (b : bool) (self : Tab) : Tab :=
  mk (win_id self) (tab_id self) (data self) (_widget self)
     (_progress self) b (_load_status self).

Definition set_load_status (s : LoadStatus.t) (self : Tab) : Tab :=
  mk (win_id self) (tab_id self) (data self) (_widget self)
     (_progress self) (_has_ssl_errors self) s.

(** [_set_load_status]: the [isinstance] check comes before the
    assignment and the emission.  (The debug logging is not modelled.) *)
Definition _set_load_status (val : PyVal) : Meth unit :=
  match as_LoadStatus val with
  | None => Py.raise TypeError
  | Some s =>
      (do Py.modify (set_load_status s) ;;
       Py.send (emit (load_status_changed (LoadStatus.name s))))%py
  end.

(** [_on_link_clicked] returns [False] for an invalid URL and falls off
    the end ([None]) otherwise.  The final [else: raise ValueError] of
    the source is for a target outside [ClickTarget], which the type
    excludes here. *)
Definition _on_link_clicked (u : QUrl) : Meth (option bool) :=
  (self <- Py.get ;;
   if negb (isValid u) then
     let msg := get_errstring u "Invalid link clicked" in
     do Py.send (message_error (win_id self) msg) ;;
     do Py.modify (set_data (TabData.set_open_target ClickTarget.normal)) ;;
     Py.ret (Some false)
   else
     let target := TabData.combined_target (data self) in
     dest <- match target with
             | ClickTarget.normal => Py.ret None
             | ClickTarget.tab => Py.ret (Some (win_id self, false))
             | ClickTarget.tab_bg => Py.ret (Some (win_id self, true))
             | ClickTarget.window =>
                 let w := MainWindow tt in
                 do Py.send (MainWindow_new w) ;;
                 do Py.send (MainWindow_show w) ;;
                 Py.ret (Some (w, false))
             end ;;
     match dest with
     | None => Py.ret None
     | Some (win, bg_tab) =>
         do Py.send (tabopen win u bg_tab) ;;
         do Py.modify (set_data (TabData.set_open_target ClickTarget.normal)) ;;
         Py.ret None
     end)%py.

Definition _on_url_changed (u : QUrl) : Meth unit :=
  (self <- Py.get ;;
   do (if isValid u && negb (truthy (title self))
       then Py.send (emit (title_changed (toDisplayString u)))
       else Py.ret tt) ;;
   Py.send (emit (url_changed u)))%py.

Definition _on_load_started : Meth unit :=
  (do Py.modify (set_progress 0) ;;
   do Py.modify (set_has_ssl_errors false) ;;
   do Py.modify (set_data (TabData.set_viewing_source false)) ;;
   do _set_load_status (PyLoadStatus LoadStatus.loading) ;;
   Py.send (emit load_started))%py.

Definition _on_load_finished (ok : bool) : Meth unit :=
  (self <- Py.get ;;
   do (if ok && negb (_has_ssl_errors self) then
         if String.eqb (scheme (url self false)) "https"
         then _set_load_status (PyLoadStatus LoadStatus.success_https)
         else _set_load_status (PyLoadStatus LoadStatus.success)
       else if ok then _set_load_status (PyLoadStatus LoadStatus.warn)
       else _set_load_status (PyLoadStatus LoadStatus.error)) ;;
   do Py.send (emit (load_finished ok)) ;;
   self <- Py.get ;;
   if negb (truthy (title self))
   then Py.send (emit (title_changed (toDisplayString (url self false))))
   else Py.ret tt)%py.

Definition _on_history_trigger : Meth unit :=
  (self <- Py.get ;;
   let u := url self false in
   let requested_url := url self true in
   Py.send (emit (add_history_item u requested_url (title self))))%py.

(** [_on_load_progress]: the slot and the signal are declared with
    [int], so [perc] is a C [int] when Qt delivers it, and it is passed on
    as it came. *)
Definition _on_load_progress (perc : Z) : Meth unit :=
  (do Py.modify (set_progress perc) ;;
   Py.send (emit (load_progress perc)))%py.

Definition _on_ssl_errors : Meth unit :=
  Py.modify (set_has_ssl_errors true).

Definition progress (self : Tab) : Z := _progress self.

Definition load_status (self : Tab) : LoadStatus.t := _load_status self.

(** Delivery of one slot invocation, and of a whole history of them; the
    tab and everything sent so far are threaded through. *)
Definition dispatch (c : Call) : Meth unit :=
  match c with
  | on_link_clicked u => (do _on_link_clicked u ;; Py.ret tt)%py
  | on_url_changed u => _on_url_changed u
  | on_load_started => _on_load_started
  | on_load_finished ok => _on_load_finished ok
  | on_history_trigger => _on_history_trigger
  | on_load_progress perc => _on_load_progress perc
  | on_ssl_errors => _on_ssl_errors
  | on_start_hinting hint =>
      Py.modify (set_data (TabData._on_start_hinting hint))
  | on_stop_hinting => Py.modify (set_data TabData._on_stop_hinting)
  end.

Fixpoint deliver (calls : list Call) : Meth unit :=
  match calls with
  | [] => Py.ret tt
  | c :: rest => (do dispatch c ;; deliver rest)%py
  end.

End Methods.

(** *** Construction: the shared id counter and the window registries *)

(** The part of the process state that [AbstractTab.__init__] works on:
    the module-level [tab_id_gen = itertools.count(0)] (its next value),
    the tab objects built so far (in construction order; an object's
    address is its position), and [objreg]'s per-window ['tab-registry']
    dictionaries, from tab id to object. *)
Record Process (W : Type) : Type := mkProcess {
  tab_id_gen : nat;
  objects : list (t W);
  tab_registries : gmap nat (gmap nat nat)
}.
Arguments mkProcess {W}.
Arguments tab_id_gen {W}.
Arguments objects {W}.
Arguments tab_registries {W}.

Section Construction.
Context {W : Type}.

Abbreviation Proc := (Process W).

(** Process start: the counter is at [0], nothing is registered. *)
Definition startup : Proc := mkProcess 0 [] ∅.

(** [next(tab_id_gen)] *)
Definition next_tab_id : Py.M Proc Effect nat :=
  (p <- Py.get ;;
   let n := tab_id_gen p in
   do Py.modify (fun p => mkProcess (S n) (objects p) (tab_registries p)) ;;
   Py.ret n)%py.

(** [objreg.get('tab-registry', scope='window', window=win_id)].  The
    [objreg] module is outside this file; its lookup fails for a window
    that has no registry, which is rendered here as [KeyError]. *)
Definition objreg_get_tab_registry (win : nat) : Py.M Proc Effect (gmap nat nat) :=
  (p <- Py.get ;;
   match tab_registries p !! win with
   | Some reg => Py.ret reg
   | None => Py.raise KeyError
   end)%py.

(** [AbstractTab.__init__(win_id)]; returns the address of the new tab. *)
Definition __init__ (win : nat) : Py.M Proc Effect nat :=
  (id <- next_tab_id ;;
   tab_registry <- objreg_get_tab_registry win ;;
   p <- Py.get ;;
   let self := mk win id TabData.__init__ None 0%Z false LoadStatus.none in
   let addr := length (objects p) in
   do Py.modify (fun p =>
        mkProcess (tab_id_gen p) (objects p ++ [self])
                  (<[win := <[id := addr]> tab_registry]> (tab_registries p))) ;;
   Py.ret addr)%py.

(** What happens in the process as far as tab construction is concerned:
    a main window appears (with an empty tab registry), or a tab is
    constructed for some window. *)
Inductive Step : Type :=
| open_window (win : nat)
| construct_tab (win : nat).

Definition exec (st : Step) (p : Proc) : Proc :=
  match st with
  | open_window win =>
      mkProcess (tab_id_gen p) (objects p) (<[win := ∅]> (tab_registries p))
  | construct_tab win => Py.final (__init__ win p)
  end.

Definition run (steps : list Step) (p : Proc) : Proc :=
  foldl (fun p st => exec st p) p steps.

(** The [tab_id] each constructor call of a run is given, in call order
    (also for a call that fails later on in [__init__]). *)
Fixpoint ids_drawn (steps : list Step) (p : Proc) : list nat :=
  match steps with
  | [] => []
  | open_window win :: rest => ids_drawn rest (exec (open_window win) p)
  | construct_tab win :: rest =>
      match Py.outcome (next_tab_id p) with
      | Ok n => n :: ids_drawn rest (exec (construct_tab win) p)
      | Raise _ => ids_drawn rest (exec (construct_tab win) p)
      end
  end.

Definition is_construct (st : Step) : bool :=
  match st with construct_tab _ => true | open_window _ => false end.

End Construction.

End AbstractTab.

(** ** [create]: choosing the backend *)

Inductive TabClass : Type :=
| WebEngineTab
| WebKitTab.

(** The parsed command line, [objreg.get('args')]. *)
Record Args : Type := mkArgs {
  backend : string
}.

(** The object [create] returns is the result of the constructor call
    [tab_class(win_id=win_id, mode_manager=mode_manager, parent=parent)];
    whichever class is chosen, the caller holds it as an [AbstractTab]. *)
Record TabObject (ModeManager QWidget : Type) : Type := mkTabObject {
  tab_class : TabClass;
  ctor_win_id : nat;
  ctor_mode_manager : ModeManager;
  ctor_parent : option QWidget
}.
Arguments mkTabObject {ModeManager QWidget}.
Arguments tab_class {ModeManager QWidget}.
Arguments ctor_win_id {ModeManager QWidget}.
Arguments ctor_mode_manager {ModeManager QWidget}.
Arguments ctor_parent {ModeManager QWidget}.

Section Create.
Context {ModeManager QWidget : Type}.
(** [modeman.instance] and the registered arguments. *)
Variable modeman_instance : nat -> ModeManager.
Variable args : Args.

Definition create (win_id : nat) (parent : option QWidget)
  : TabObject ModeManager QWidget :=
  let mode_manager := modeman_instance win_id in
  let cls :=
    if String.eqb (backend args) "webengine" then WebEngineTab else WebKitTab in
  mkTabObject cls win_id mode_manager parent.

End Create.

(** ** Python floats *)

(** A Python [float] is an IEEE 754 binary64 number: [spec_float] with 53
    bits of precision and [emax = 1024]. *)
Module PyFloat.

Abbreviation t := spec_float.

Definition prec : Z := 53.
Definition emax : Z := 1024.

Definition mul (x y : t) : t := SFmul prec emax x y.

(** [x < y] and [x <= y]; both are [False] as soon as one side is NaN. *)
Definition lt (x y : t) : bool := SFltb x y.
Definition le (x y : t) : bool := SFleb x y.

(** The literals [0] and [100] of the source, as the floats they are
    converted to when combined with a float. *)
Definition zero : t := S754_zero false.
Definition hundred : t := S754_finite false (100 * 2 ^ 46) (-46).

(** [int(x)]: truncation towards zero; [OverflowError] on an infinity,
    [ValueError] on NaN. *)
Definition to_int (x : t) : result Z :=
  match x with
  | S754_zero _ => Ok 0%Z
  | S754_finite s m e => Ok (cond_Zopp s (Z.shiftl (Z.pos m) e))
  | S754_infinity _ => Raise OverflowError
  | S754_nan => Raise ValueError
  end.

Definition is_finite (x : t) : bool :=
  match x with
  | S754_zero _ | S754_finite _ _ _ => true
  | S754_infinity _ | S754_nan => false
  end.

(** [float(n)] for an [int]: the nearest float, ties to even;
    [OverflowError] when that is out of range. *)
Definition of_int (n : Z) : result t :=
  match binary_normalize prec emax n 0 false with
  | S754_infinity _ => Raise OverflowError
  | x => Ok x
  end.

(** [x / y] for a divisor that is not zero. *)
Definition div (x y : t) : t := SFdiv prec emax x y.

End PyFloat.

(** ** [AbstractZoom] *)

Module AbstractZoom.

(** Modelled from the spec: [usertypes.NeighborList] is declared outside
    the two files embedded here; [set_factor] only assigns its [fuzzyval]
    attribute, so the list is its items together with that attribute. *)
Record NeighborList : Type := mkNeighborList {
  items : list Z;
  fuzzyval : option Z
}.

Record t : Type := mk {
  _win_id : nat;
  _default_zoom_changed : bool;
  _neighborlist : NeighborList
}.

(** The one call [set_factor] makes into the backend-specific subclass. *)
Inductive ZoomEffect : Type :=
| _set_factor_internal (factor : PyFloat.t).

Definition set_fuzzyval (n : Z) (self : t) : t :=
  mk (_win_id self) (_default_zoom_changed self)
     (mkNeighborList (items (_neighborlist self)) (Some n)).

Definition set_default_zoom_changed (b : bool) (self : t) : t :=
  mk (_win_id self) b (_neighborlist self).

(** A builtin that may raise, run inside a method. *)
Definition lift {A} (r : result A) : Py.M t ZoomEffect A := fun s => (r, s, []).

(** [set_factor(factor, *, fuzzyval=True)] *)
Definition set_factor (factor : PyFloat.t) (fuzzyval : bool)
  : Py.M t ZoomEffect unit :=
  (do (if fuzzyval then
         n <- lift (PyFloat.to_int (PyFloat.mul factor PyFloat.hundred)) ;;
         Py.modify (set_fuzzyval n)
       else Py.ret tt) ;;
   if PyFloat.lt factor PyFloat.zero then Py.raise ValueError
   else
     do Py.modify (set_default_zoom_changed true) ;;
     Py.send (_set_factor_internal factor))%py.

(** The two settings the zoom reads with [config.get('ui', ...)]:
    [zoom-levels], a list of percentages, and [default-zoom], one
    percentage. *)
Record Config : Type := mkConfig {
  zoom_levels : list Z;
  default_zoom : Z
}.

(** [float(percentage) / 100] *)
Definition percent_factor (percentage : Z) : result PyFloat.t :=
  match PyFloat.of_int percentage with
  | Ok x => Ok (PyFloat.div x PyFloat.hundred)
  | Raise e => Raise e
  end.

(** [_init_neighborlist]: a new list of the configured levels, its
    [fuzzyval] set to the configured default. *)
Definition _init_neighborlist (cfg : Config) (self : t) : t :=
  mk (_win_id self) (_default_zoom_changed self)
     (mkNeighborList (zoom_levels cfg) (Some (default_zoom cfg))).

(** [AbstractZoom.__init__(win_id)] *)
Definition __init__ (cfg : Config) (win_id : nat) : t :=
  _init_neighborlist cfg (mk win_id false (mkNeighborList [] None)).

(** [_on_config_changed(section, option)], the slot connected to the
    configuration's [changed] signal; [cfg] is the configuration at the
    time of the call. *)
Definition _on_config_changed (cfg : Config) (section option : string)
  : Py.M t ZoomEffect unit :=
  if String.eqb section "ui"
     && (String.eqb option "zoom-levels" || String.eqb option "default-zoom")
  then
    (self <- Py.get ;;
     do (if negb (_default_zoom_changed self) then
           factor <- lift (percent_factor (default_zoom cfg)) ;;
           Py.send (_set_factor_internal factor)
         else Py.ret tt) ;;
     do Py.modify (set_default_zoom_changed false) ;;
     Py.modify (_init_neighborlist cfg))%py
  else Py.ret tt.

(** [set_default] *)
Definition set_default (cfg : Config) : Py.M t ZoomEffect unit :=
  (factor <- lift (percent_factor (default_zoom cfg)) ;;
   Py.send (_set_factor_internal factor))%py.

End AbstractZoom.

(** ** The request-list steps of the integration tests *)

Module conftest.

(** Modelled from the spec: [httpbin.ExpectedRequest] and the [Request]
    lines of the test web server are declared in the server's helper
    module, outside the two files embedded here.  An expected request is built from a
    verb and a path and compares (and hashes) by them; a received request
    carries the verb, the path and the answer's status, and compares with
    an expected request by verb and path. *)
Record ExpectedRequest : Type := mkExpectedRequest {
  verb : string;
  path : string
}.

#[global] Instance ExpectedRequest_eq_dec : EqDecision ExpectedRequest.
Proof. solve_decision. Defined.

#[global] Instance ExpectedRequest_countable : Countable ExpectedRequest.
Proof.
  refine (inj_countable' (fun e => (verb e, path e))
                         (fun p => mkExpectedRequest p.1 p.2) _).
  intros []; reflexivity.
Defined.

Record Request : Type := mkRequest {
  req_verb : string;
  req_path : string;
  req_status : Z
}.

(** [ExpectedRequest.from_request] *)
Definition from_request (r : Request) : ExpectedRequest :=
  mkExpectedRequest (req_verb r) (req_path r).

(** [request == expected] *)
Definition request_eq (r : Request) (e : ExpectedRequest) : bool :=
  String.eqb (req_verb r) (verb e) && String.eqb (req_path r) (path e).

(** [==] on two Python lists: same length, equal element by element. *)
Fixpoint list_eq {A B} (eq : A -> B -> bool) (xs : list A) (ys : list B) : bool :=
  match xs, ys with
  | [], [] => true
  | x :: xs', y :: ys' => eq x y && list_eq eq xs' ys'
  | _, _ => false
  end.

(** [str.split('\n')] *)
Fixpoint split_lines (s : string) : list string :=
  match s with
  | EmptyString => [EmptyString]
  | String c rest =>
      if Ascii.eqb c "010"%char then EmptyString :: split_lines rest
      else match split_lines rest with
           | line :: lines => String c line :: lines
           | [] => [String c EmptyString]
           end
  end.

(** [str.strip()], on text in the ASCII range: the characters for which
    [str.isspace] holds are tab, line feed, vertical tab, form feed,
    carriage return, the separators 28 to 31 and the blank. *)
Definition isspace (c : ascii) : bool :=
  let n := Ascii.nat_of_ascii c in
  ((9 <=? n)%nat && (n <=? 13)%nat) || ((28 <=? n)%nat && (n <=? 32)%nat).

Fixpoint lstrip (s : string) : string :=
  match s with
  | EmptyString => EmptyString
  | String c rest => if isspace c then lstrip rest else s
  end.

Fixpoint rstrip (s : string) : string :=
  match s with
  | EmptyString => EmptyString
  | String c rest =>
      match rstrip rest with
      | EmptyString => if isspace c then EmptyString else String c EmptyString
      | kept => String c kept
      end
  end.

Definition strip (s : string) : string := rstrip (lstrip s).

(** The list both steps build from the step's text. *)
Definition expected_requests (pages : string) : list ExpectedRequest :=
  map (fun p => mkExpectedRequest "GET" (String.append "/" (strip p)))
      (split_lines pages).

(** [collections.Counter(iterable)]: every element is counted up from the
    count it has so far ([0] when absent). *)
Definition Counter `{Countable K} (xs : list K) : gmap K nat :=
  foldl (fun c x => <[x := S (default 0%nat (c !! x))]> c) ∅ xs.

(** The outcome of a step function: it passes, or an [assert] fails. *)
Inductive StepOutcome : Type :=
| passed
| AssertionError.

(** [list_of_requests]; [actual] is [httpbin.get_requests()]. *)
Definition list_of_requests (actual : list Request) (pages : string)
  : StepOutcome :=
  let expected := expected_requests pages in
  if list_eq request_eq actual expected then passed else AssertionError.

(** [list_of_requests_unordered] *)
Definition list_of_requests_unordered (actual : list Request) (pages : string)
  : StepOutcome :=
  let expected := expected_requests pages in
  let actual' := map from_request actual in
  if bool_decide (Counter actual' = Counter expected)
  then passed else AssertionError.

(** *** More string builtins *)

(** [s[:n]] and [s[n:]] for [n >= 0]. *)
Fixpoint str_take (n : nat) (s : string) : string :=
  match n, s with
  | S k, String c rest => String c (str_take k rest)
  | _, _ => EmptyString
  end.

Fixpoint str_drop (n : nat) (s : string) : string :=
  match n, s with
  | S k, String _ rest => str_drop k rest
  | _, _ => s
  end.

(** [s.endswith(suffix)] *)
Definition endswith (s suffix : string) : bool :=
  (String.length suffix <=? String.length s)%nat
  && String.eqb (str_drop (String.length s - String.length suffix) s) suffix.

(** [s[:-k]] for [k > 0]. *)
Definition drop_last (k : nat) (s : string) : string :=
  str_take (String.length s - k) s.

(** [sub in s] *)
Fixpoint contains (sub s : string) : bool :=
  String.prefix sub s
  || match s with
     | EmptyString => false
     | String _ rest => contains sub rest
     end.

(** [s.split(sep)] for a separator that is not empty: the occurrences of
    [sep] are found from the left and do not overlap; [skip] counts the
    characters of a found separator still to be passed over. *)
Fixpoint split_go (sep : string) (skip : nat) (s : string) : list string :=
  match s with
  | EmptyString => [EmptyString]
  | String c rest =>
      match skip with
      | S k => split_go sep k rest
      | O =>
          if String.prefix sep s
          then EmptyString :: split_go sep (String.length sep - 1) rest
          else match split_go sep 0 rest with
               | piece :: pieces => String c piece :: pieces
               | [] => [String c EmptyString]
               end
      end
  end.

Definition split_on (sep s : string) : list string := split_go sep 0 s.

(** [s.replace(old, new)] for a pattern that is not empty, found the same
    way. *)
Fixpoint replace_go (old new : string) (skip : nat) (s : string) : string :=
  match s with
  | EmptyString => EmptyString
  | String c rest =>
      match skip with
      | S k => replace_go old new k rest
      | O =>
          if String.prefix old s
          then String.append new (replace_go old new (String.length old - 1) rest)
          else String c (replace_go old new 0 rest)
      end
  end.

Definition replace (old new s : string) : string := replace_go old new 0 s.

(** [str.splitlines()], on text in the ASCII range: a line ends at a line
    feed, vertical tab, form feed, carriage return (together with a line
    feed right after it) or one of the separators 28 to 30; a last line
    without such an end counts if it is not empty. *)
Definition is_linebreak (c : ascii) : bool :=
  let n := Ascii.nat_of_ascii c in
  ((10 <=? n)%nat && (n <=? 13)%nat) || ((28 <=? n)%nat && (n <=? 30)%nat).

Fixpoint splitlines (s : string) : list string :=
  match s with
  | EmptyString => []
  | String c rest =>
      if is_linebreak c then
        EmptyString ::
          match rest with
          | String c' rest' =>
              if Ascii.eqb c "013"%char && Ascii.eqb c' "010"%char
              then splitlines rest' else splitlines rest
          | EmptyString => splitlines rest
          end
      else match splitlines rest with
           | line :: lines => String c line :: lines
           | [] => [String c EmptyString]
           end
  end.

(** *** Steps that drive the browser process *)

(** The calls these steps make on the [quteproc] fixture. *)
Inductive QuteCall : Type :=
| quteproc_open_path (path : string) (new_tab : bool)
| quteproc_send_cmd (command : string) (count : option Z).

(** [open_path], the step "When I open ...". *)
Definition open_path (path : string) : QuteCall :=
  let new_tab_suffix := " in a new tab" in
  if endswith path new_tab_suffix
  then quteproc_open_path
         (drop_last (String.length new_tab_suffix) path) true
  else quteproc_open_path path false.

(** [open_path_given], the step "Given I open ...". *)
Definition open_path_given (path : string) : QuteCall :=
  quteproc_open_path path true.

(** [run_command], the step "When I run ...".  [int] is the builtin that
    reads the count, [port] is [str(httpbin.port)].  Unpacking the pieces
    of the split into [command, count] raises [ValueError] unless there
    are exactly two. *)
Definition run_command (int : string -> result Z) (port : string)
    (command : string) : result QuteCall :=
  if contains "with count" command then
    match split_on " with count " command with
    | [command'; count] =>
        match int count with
        | Ok n => Ok (quteproc_send_cmd (replace "(port)" port command') (Some n))
        | Raise e => Raise e
        end
    | _ => Raise ValueError
    end
  else Ok (quteproc_send_cmd (replace "(port)" port command) None).

(** *** The open-tabs check *)

(** The part of the session data ([quteproc.get_session()], parsed YAML)
    that [check_open_tabs] looks at: the windows, their tabs, each tab's
    history of URLs and its ['active'] entry, if it has one. *)
Record HistoryItem : Type := mkHistoryItem {
  item_url : string
}.

Record SessionTab : Type := mkSessionTab {
  tab_history : list HistoryItem;
  tab_active : option bool
}.

Record SessionWindow : Type := mkSessionWindow {
  window_tabs : list SessionTab
}.

Record Session : Type := mkSession {
  session_windows : list SessionWindow
}.

(** How the check ends: it passes, an [assert] fails, or a lookup raises
    ([history[-1]] on an empty history, ['active'] on a tab without that
    key). *)
Inductive CheckError : Type :=
| failed_assert
| index_error
| key_error.

Inductive Check : Type :=
| check_passed
| check_raised (e : CheckError).

(** One line of the step's text: stripped, without its first two
    characters (the ["- "]), and without the [" (active)"] mark if it ends
    in one. *)
Definition parse_tab_line (line : string) : string * bool :=
  let line := strip line in
  let line := str_drop 2 line in
  let active_suffix := " (active)" in
  if endswith line active_suffix
  then (drop_last (String.length active_suffix) line, true)
  else (line, false).

Section CheckOpenTabs.
(** [quteproc.path_to_url] *)
Variable path_to_url : string -> string.

(** The body of the loop over the lines. *)
Definition check_tab (session_tab : SessionTab) (line : string) : Check :=
  let '(path, active) := parse_tab_line line in
  match last (tab_history session_tab) with
  | None => check_raised index_error
  | Some item =>
      if negb (String.eqb (item_url item) (path_to_url path))
      then check_raised failed_assert
      else if active then
        match tab_active session_tab with
        | None => check_raised key_error
        | Some true => check_passed
        | Some false => check_raised failed_assert
        end
      else
        match tab_active session_tab with
        | None => check_passed
        | Some _ => check_raised failed_assert
        end
  end.

(** [for i, line in enumerate(tabs)], from index [i] on. *)
Fixpoint check_tabs_from (i : nat) (session_tabs : list SessionTab)
    (lines : list string) : Check :=
  match lines with
  | [] => check_passed
  | line :: rest =>
      match session_tabs !! i with
      | None => check_raised index_error
      | Some session_tab =>
          match check_tab session_tab line with
          | check_passed => check_tabs_from (S i) session_tabs rest
          | check_raised e => check_raised e
          end
      end
  end.

(** [check_open_tabs] *)
Definition check_open_tabs (session : Session) (tabs : string) : Check :=
  let lines := splitlines tabs in
  if negb (length (session_windows session) =? 1)%nat
  then check_raised failed_assert
  else match session_windows session !! 0%nat with
       | None => check_raised index_error
       | Some w =>
           if negb (length (window_tabs w) =? length lines)%nat
           then check_raised failed_assert
           else check_tabs_from 0 (window_tabs w) lines
       end.

End CheckOpenTabs.

End conftest.

(** ** Specification-side definitions *)

(** The load status the specification prescribes once a load has finished,
    from [ok], whether SSL errors were recorded, and whether the current
    URL's scheme is [https]. *)
Definition status_after_load (ok ssl_errors https : bool) : LoadStatus.t :=
  match ok, ssl_errors, https with
  | false, _, _ => LoadStatus.error
  | true, true, _ => LoadStatus.warn
  | true, false, true => LoadStatus.success_https
  | true, false, false => LoadStatus.success
  end.

(** Whether SSL errors were recorded since the last load start of a
    history of slot invocations; [before] answers for the time before the
    history. *)
Fixpoint ssl_errors_since_load_start (before : bool)
    (history : list AbstractTab.Call) : bool :=
  match history with
  | [] => before
  | AbstractTab.on_load_started :: later =>
      ssl_errors_since_load_start false later
  | AbstractTab.on_ssl_errors :: later =>
      ssl_errors_since_load_start true later
  | _ :: later => ssl_errors_since_load_start before later
  end.

(** A value that is no member of the [LoadStatus] enumeration. *)
Definition no_LoadStatus (val : PyVal) : Prop :=
  forall s : LoadStatus.t, val <> PyLoadStatus s.

(** The order the construction of tabs keeps in a process: the tabs built
    so far carry strictly increasing ids, in construction order; every one
    of these ids lies below the counter's next value; and whatever a
    window's tab registry holds under an id is a tab of that window with
    that very id. *)
Definition ids_in_order {W : Type} (p : AbstractTab.Process W) : Prop :=
  StronglySorted lt (map AbstractTab.tab_id (AbstractTab.objects p))
  /\ Forall (fun t => AbstractTab.tab_id t < AbstractTab.tab_id_gen p)
            (AbstractTab.objects p)
  /\ forall (win : nat) (reg : gmap nat nat) (id addr : nat),
       AbstractTab.tab_registries p !! win = Some reg ->
       reg !! id = Some addr ->
       exists t, AbstractTab.objects p !! addr = Some t
                 /\ AbstractTab.tab_id t = id
                 /\ AbstractTab.win_id t = win.

(** A tab whose page has the given URL and title: the simplest backend,
    where the widget is just that pair. *)
#[global] Instance PageImpl : AbstractTab.Impl (QUrl * option string) := {|
  AbstractTab.url self _ :=
    match AbstractTab._widget self with
    | Some page => page.1
    | None => mkQUrl false "" ""
    end;
  AbstractTab.title self :=
    match AbstractTab._widget self with
    | Some page => page.2
    | None => None
    end
|}.

Definition example_tab : AbstractTab.t (QUrl * option string) :=
  AbstractTab.mk 0 7
    (TabData.mk false true None ClickTarget.tab (Some ClickTarget.window))
    (Some (mkQUrl true "https" "https://example.org/", Some "Example"))
    42 true LoadStatus.success.

Definition example_zoom : AbstractZoom.t :=
  AbstractZoom.mk 0 false (AbstractZoom.mkNeighborList [50; 100; 200]%Z (Some 100%Z)).

(** The floats [-0.5] and [1.5]. *)
Definition minus_half : PyFloat.t := S754_finite true (2 ^ 52) (-53).
Definition one_and_half : PyFloat.t := S754_finite false (3 * 2 ^ 51) (-52).

(** The most negative finite float, [-1.7976931348623157e308]. *)
Definition minus_max_float : PyFloat.t := S754_finite true (2 ^ 53 - 1) 971.

(** *** Reading a history of slot invocations *)

(** What [progress()] should return after a history: the percentage of
    the last [_on_load_progress] since the last load start, [0] if the
    load has just started, and the value from before the history if the
    history has neither. *)
Fixpoint progress_after (before : Z) (history : list AbstractTab.Call) : Z :=
  match history with
  | [] => before
  | AbstractTab.on_load_started :: later => progress_after 0 later
  | AbstractTab.on_load_progress perc :: later => progress_after perc later
  | _ :: later => progress_after before later
  end.

(** The backend events a tab passes on under a signal of its own. *)
Definition relayed (c : AbstractTab.Call) : option Signal :=
  match c with
  | AbstractTab.on_load_started => Some load_started
  | AbstractTab.on_load_progress perc => Some (load_progress perc)
  | AbstractTab.on_load_finished ok => Some (load_finished ok)
  | AbstractTab.on_url_changed u => Some (url_changed u)
  | _ => None
  end.

(** The same four signals, picked out of what a tab has sent. *)
Definition relay_signal (e : Effect) : option Signal :=
  match e with
  | emit load_started => Some load_started
  | emit (load_progress perc) => Some (load_progress perc)
  | emit (load_finished ok) => Some (load_finished ok)
  | emit (url_changed u) => Some (url_changed u)
  | _ => None
  end.

(** The status names announced with [load_status_changed]. *)
Definition status_signal (e : Effect) : option string :=
  match e with
  | emit (load_status_changed status) => Some status
  | _ => None
  end.

Definition is_load_event (c : AbstractTab.Call) : bool :=
  match c with
  | AbstractTab.on_load_started | AbstractTab.on_load_finished _ => true
  | _ => false
  end.

Definition is_title_changed (e : Effect) : bool :=
  match e with
  | emit (title_changed _) => true
  | _ => false
  end.

(** A backend whose page always has a title. *)
Definition TitledImpl : AbstractTab.Impl unit := {|
  AbstractTab.url _ _ := mkQUrl true "http" "http://example.org/";
  AbstractTab.title _ := Some "Example"
|}.

(** The settings the zoom is concerned with. *)
Definition is_zoom_setting (section option : string) : Prop :=
  section = "ui" /\ (option = "zoom-levels" \/ option = "default-zoom").

Definition example_config : AbstractZoom.Config :=
  AbstractZoom.mkConfig [25; 50; 100; 200]%Z 100%Z.

(** The float [1.0]. *)
Definition one : PyFloat.t := S754_finite false (2 ^ 52) (-52).

(** What [check_open_tabs] asks of a tab of the session, for one line of
    the step's text: the last URL of its history is the line's path made
    into a URL, and the tab has a true ['active'] entry if the line is
    marked active and no ['active'] entry at all if it is not. *)
Definition tab_matches (path_to_url : string -> string)
    (session_tab : conftest.SessionTab) (line : string) : Prop :=
  exists item,
    last (conftest.tab_history session_tab) = Some item
    /\ conftest.item_url item
       = path_to_url (conftest.parse_tab_line line).1
    /\ conftest.tab_active session_tab
       = if (conftest.parse_tab_line line).2 then Some true else None.

(** A line of the tab list as the step's text writes it: a marker of two
    characters (["- "]), the path, and [" (active)"] for the active tab. *)
Record TabLine : Type := mkTabLine {
  line_marker : string;
  line_path : string;
  line_active : bool
}.

(** [line], once stripped, is the line written for [e].  A path that ends
    in [" (active)"] itself cannot be written as a line that is not
    active. *)
Definition written_as (line : string) (e : TabLine) : Prop :=
  conftest.strip line
  = line_marker e +:+ line_path e
      +:+ (if line_active e then " (active)" else "")
  /\ String.length (line_marker e) = 2
  /\ (line_active e = false ->
      forall p : string, line_path e <> p +:+ " (active)").

(** The tab of the session that such a line describes: the last URL of
    its history is the path made into a URL, and it has a true ['active']
    entry if the line is active, and no ['active'] entry if it is not. *)
Definition tab_shows (path_to_url : string -> string)
    (session_tab : conftest.SessionTab) (e : TabLine) : Prop :=
  exists item,
    last (conftest.tab_history session_tab) = Some item
    /\ conftest.item_url item = path_to_url (line_path e)
    /\ conftest.tab_active session_tab
       = if line_active e then Some true else None.

(** Text in the ASCII range, on which [strip] and [splitlines] above are
    Python's. *)
Fixpoint is_ascii (s : string) : bool :=
  match s with
  | EmptyString => true
  | String c rest => (Ascii.nat_of_ascii c <? 128)%nat && is_ascii rest
  end.

(** The arguments of a slot invocation lie in the range of the Qt types
    they are declared with: a load percentage is a C [int]. *)
Definition fits_qt_types (c : AbstractTab.Call) : Prop :=
  match c with
  | AbstractTab.on_load_progress perc =>
      (- 2 ^ 31 <= perc < 2 ^ 31)%Z
  | _ => True
  end.

(** A stand-in for the builtin [int] on the counts used below: a string
    of the digits [0] to [9] is read as a decimal number, anything else is
    refused. *)
Fixpoint read_digits (acc : Z) (s : string) : result Z :=
  match s with
  | EmptyString => Ok acc
  | String c rest =>
      let n := Ascii.nat_of_ascii c in
      if ((48 <=? n)%nat && (n <=? 57)%nat)
      then read_digits (10 * acc + Z.of_nat (n - 48)) rest
      else Raise ValueError
  end.

Definition int_of_digits (s : string) : result Z :=
  match s with
  | EmptyString => Raise ValueError
  | _ => read_digits 0 s
  end.

(** A sequence of changes to the zoom settings, each with the
    configuration it leaves and the option that changed, delivered to
    [_on_config_changed] one after the other. *)
Fixpoint config_changes (changes : list (AbstractZoom.Config * string))
  : Py.M AbstractZoom.t AbstractZoom.ZoomEffect unit :=
  match changes with
  | [] => Py.ret tt
  | (cfg, option) :: later =>
      (do AbstractZoom._on_config_changed cfg "ui" option ;;
       config_changes later)%py
  end.

(** The factor handed to the widget by a call of [_set_factor_internal]. *)
Definition applied_factor (e : AbstractZoom.ZoomEffect) : PyFloat.t :=
  match e with AbstractZoom._set_factor_internal factor => factor end.

(** ** Properties of [TabData] *)

(** C4. [combined_target] is [hint_target] when that is set and
    [open_target] otherwise.  [_on_start_hinting t] sets [hint_target] to
    [t], which from then on is the combined target; [_on_stop_hinting]
    resets [hint_target] to [None], making [open_target] the combined
    target again.  Neither changes [open_target] (nor any other attribute
    than [hint_target]). *)
Theorem hinting_overrides_open_target (d : TabData.t) (hint : ClickTarget.t) :
  TabData.combined_target d
    = default (TabData.open_target d) (TabData.hint_target d)
  /\ TabData.hint_target (TabData._on_start_hinting hint d) = Some hint
  /\ TabData.combined_target (TabData._on_start_hinting hint d) = hint
  /\ TabData.open_target (TabData._on_start_hinting hint d)
       = TabData.open_target d
  /\ TabData.hint_target (TabData._on_stop_hinting d) = None
  /\ TabData.combined_target (TabData._on_stop_hinting d)
       = TabData.open_target d
  /\ TabData.open_target (TabData._on_stop_hinting d) = TabData.open_target d
  /\ TabData._on_stop_hinting (TabData._on_start_hinting hint d)
       = TabData._on_stop_hinting d.
Proof.
  destruct d as [ki vs insp ot ht].
  repeat split; reflexivity.
Qed.

(** ** Properties of [AbstractTab] *)

Section TabProperties.
Context {W : Type} `{AbstractTab.Impl W}.
Implicit Types (self : AbstractTab.t W) (s : LoadStatus.t).

Lemma set_load_status_member self s :
  AbstractTab._set_load_status (PyLoadStatus s) self
  = (Ok tt, AbstractTab.set_load_status s self,
     [emit (load_status_changed (LoadStatus.name s))]).
Proof. reflexivity. Qed.

Lemma no_LoadStatus_spec (val : PyVal) :
  no_LoadStatus val <-> as_LoadStatus val = None.
Proof.
  unfold no_LoadStatus. split.
  - intros Hno. destruct val; try reflexivity. destruct (Hno s). reflexivity.
  - intros Hnone s ->. discriminate Hnone.
Qed.

(** C9. A value that is no [LoadStatus] member makes [_set_load_status]
    raise [TypeError], leaving the tab as it was (so the stored load status
    too) and emitting nothing.  A member is stored, and
    [load_status_changed] is emitted exactly once, with the member's
    name. *)
Theorem set_load_status_checks_type self (val : PyVal) :
  (no_LoadStatus val ->
     AbstractTab._set_load_status val self = (Raise TypeError, self, []))
  /\ (forall s, val = PyLoadStatus s ->
        let r := AbstractTab._set_load_status val self in
        Py.outcome r = Ok tt
        /\ AbstractTab.load_status (Py.final r) = s
        /\ Py.final r = AbstractTab.set_load_status s self
        /\ Py.sent r = [emit (load_status_changed (LoadStatus.name s))]).
Proof.
  split.
  - intros Hno. apply no_LoadStatus_spec in Hno.
    unfold AbstractTab._set_load_status. rewrite Hno. reflexivity.
  - intros s ->. rewrite set_load_status_member. repeat split.
Qed.

(** C2. Whatever the tab's state, [_on_load_started] returns normally and
    leaves the tab with progress [0], the SSL-error flag cleared,
    [data.viewing_source] false and the load status [loading]; every other
    attribute of the tab and of its [data] is what it was. *)
Theorem load_started_resets self :
  let r := AbstractTab._on_load_started self in
  Py.outcome r = Ok tt
  /\ AbstractTab.progress (Py.final r) = 0%Z
  /\ AbstractTab._has_ssl_errors (Py.final r) = false
  /\ TabData.viewing_source (AbstractTab.data (Py.final r)) = false
  /\ AbstractTab.load_status (Py.final r) = LoadStatus.loading
  /\ Py.final r
     = AbstractTab.mk (AbstractTab.win_id self) (AbstractTab.tab_id self)
         (TabData.mk (TabData.keep_icon (AbstractTab.data self)) false
            (TabData.inspector (AbstractTab.data self))
            (TabData.open_target (AbstractTab.data self))
            (TabData.hint_target (AbstractTab.data self)))
         (AbstractTab._widget self) 0%Z false LoadStatus.loading.
Proof. repeat split. Qed.

End TabProperties.

Lemma set_load_status_checks_type_witness :
  AbstractTab._set_load_status (PyStr "loading") example_tab
  = (Raise TypeError, example_tab, []).
Proof.
  refine (proj1 (set_load_status_checks_type example_tab (PyStr "loading")) _).
  intros s. discriminate.
Defined.

Ltac py_unfold :=
  cbv [Py.bind Py.ret Py.get Py.modify Py.send Py.raise
       Py.outcome Py.final Py.sent fst snd].

Section TabHandlers.
Context {W : Type} `{AbstractTab.Impl W}.
Variable get_errstring : QUrl -> string -> string.
Variable MainWindow : unit -> nat.
Implicit Types (self : AbstractTab.t W) (history : list AbstractTab.Call).

Abbreviation dispatch := (AbstractTab.dispatch get_errstring MainWindow).
Abbreviation deliver := (AbstractTab.deliver get_errstring MainWindow).

Lemma load_finished_runs self (ok : bool) :
  let s := status_after_load ok (AbstractTab._has_ssl_errors self)
             (bool_decide (scheme (AbstractTab.url self false) = "https")) in
  let self' := AbstractTab.set_load_status s self in
  AbstractTab._on_load_finished ok self
  = (Ok tt, self',
     emit (load_status_changed (LoadStatus.name s))
       :: emit (load_finished ok)
       :: (if truthy (AbstractTab.title self') then []
           else [emit (title_changed
                         (toDisplayString (AbstractTab.url self' false)))])).
Proof.
  unfold AbstractTab._on_load_finished. py_unfold.
  destruct ok, (AbstractTab._has_ssl_errors self) eqn:Hssl; cbn [andb negb];
    try (rewrite !set_load_status_member; cbn [status_after_load app];
         destruct (truthy _); reflexivity).
  case_bool_decide as Hs.
  - apply String.eqb_eq in Hs. rewrite Hs, set_load_status_member.
    cbn [status_after_load app]. destruct (truthy _); reflexivity.
  - apply String.eqb_neq in Hs. rewrite Hs, set_load_status_member.
    cbn [status_after_load app]. destruct (truthy _); reflexivity.
Qed.

Lemma dispatch_returns (c : AbstractTab.Call) self :
  Py.outcome (dispatch c self) = Ok tt.
Proof.
  destruct c; cbn [AbstractTab.dispatch]; try reflexivity.
  - unfold AbstractTab._on_link_clicked. py_unfold.
    destruct (isValid u); cbn [negb]; [| reflexivity].
    destruct (TabData.combined_target _); reflexivity.
  - unfold AbstractTab._on_url_changed. py_unfold.
    destruct (_ && _); reflexivity.
  - rewrite load_finished_runs. reflexivity.
Qed.

(** What one slot invocation does to the SSL-error flag. *)
Lemma dispatch_ssl_flag (c : AbstractTab.Call) self :
  AbstractTab._has_ssl_errors (Py.final (dispatch c self))
  = ssl_errors_since_load_start (AbstractTab._has_ssl_errors self) [c].
Proof.
  destruct c; cbn [AbstractTab.dispatch ssl_errors_since_load_start];
    try reflexivity.
  - unfold AbstractTab._on_link_clicked. py_unfold.
    destruct (isValid u); cbn [negb]; [| reflexivity].
    destruct (TabData.combined_target _); reflexivity.
  - unfold AbstractTab._on_url_changed. py_unfold.
    destruct (_ && _); reflexivity.
  - rewrite load_finished_runs. reflexivity.
Qed.

Lemma deliver_cons (c : AbstractTab.Call) history self :
  Py.final (deliver (c :: history) self)
  = Py.final (deliver history (Py.final (dispatch c self))).
Proof.
  cbn [AbstractTab.deliver]. unfold Py.bind at 1.
  pose proof (dispatch_returns c self) as Hok.
  destruct (dispatch c self) as [[r self1] out1]. cbn in Hok. subst r.
  cbn [Py.final fst snd].
  destruct (deliver history self1) as [[r2 self2] out2]. reflexivity.
Qed.

Lemma ssl_errors_since_load_start_cons (before : bool)
    (c : AbstractTab.Call) history :
  ssl_errors_since_load_start before (c :: history)
  = ssl_errors_since_load_start (ssl_errors_since_load_start before [c]) history.
Proof. destruct c; reflexivity. Qed.

Lemma deliver_ssl_flag history : forall self,
  AbstractTab._has_ssl_errors (Py.final (deliver history self))
  = ssl_errors_since_load_start (AbstractTab._has_ssl_errors self) history.
Proof.
  induction history as [| c history IH]; intros self.
  - reflexivity.
  - rewrite deliver_cons, IH, dispatch_ssl_flag.
    symmetry. apply ssl_errors_since_load_start_cons.
Qed.

(** C1. Let a tab go through any history of slot invocations and then
    receive [_on_load_finished(ok)].  The call returns normally, and the
    load status it leaves, which is what [load_status()] then returns, is:
    [error] when [ok] is false; [warn] when [ok] is true and SSL errors
    were recorded since the last load start; otherwise [success_https] when
    the scheme of the current URL is [https], and [success] when it is not.
    The flag the handler consults records exactly whether [_on_ssl_errors]
    was invoked since the last [_on_load_started]. *)
Theorem load_finished_sets_status self history (ok : bool) :
  let now := Py.final (deliver history self) in
  let r := AbstractTab._on_load_finished ok now in
  let ssl := ssl_errors_since_load_start
               (AbstractTab._has_ssl_errors self) history in
  Py.outcome r = Ok tt
  /\ AbstractTab._has_ssl_errors now = ssl
  /\ AbstractTab.load_status (Py.final r)
     = status_after_load ok ssl
         (bool_decide (scheme (AbstractTab.url now false) = "https"))
  /\ Py.final r
     = AbstractTab.set_load_status (AbstractTab.load_status (Py.final r)) now.
Proof.
  cbv zeta. rewrite load_finished_runs, <- deliver_ssl_flag.
  repeat split.
Qed.

(** C3. [_on_load_finished(ok)] emits, in this order and nothing else:
    [load_status_changed] with the name of the status it has just stored,
    then [load_finished(ok)], then [title_changed] with the URL's display
    string, the last one only if [title()] is empty (or [None]).
    [_on_load_started] emits [load_status_changed('loading')] and then
    [load_started], and nothing else. *)
Theorem load_signals_in_order self (ok : bool) :
  let r := AbstractTab._on_load_finished ok self in
  let after := Py.final r in
  Py.sent r
  = [emit (load_status_changed
             (LoadStatus.name (AbstractTab.load_status after)));
     emit (load_finished ok)]
    ++ (if truthy (AbstractTab.title after) then []
        else [emit (title_changed
                      (toDisplayString (AbstractTab.url after false)))])
  /\ Py.sent (AbstractTab._on_load_started self)
     = [emit (load_status_changed "loading"); emit load_started].
Proof.
  cbv zeta. rewrite load_finished_runs. split; reflexivity.
Qed.

(** C6. [_on_link_clicked(url)] never raises.  For an invalid URL it shows
    an error message in the tab's window, resets [data.open_target] to
    [normal], returns [False] and opens nothing.  For a valid URL it goes
    by the combined target: with [normal] nothing is sent and the tab is
    unchanged; with [tab] or [tab_bg] the URL is opened with [tabopen] in
    the tab's own window, in the background exactly for [tab_bg]; with
    [window] a new main window is created and shown and the URL is opened
    there in the foreground.  After each [tabopen], [open_target] is
    [normal] again. *)
Theorem link_clicked_by_target self (u : QUrl) :
  let r := AbstractTab._on_link_clicked get_errstring MainWindow u self in
  let d := AbstractTab.data self in
  let reset :=
    AbstractTab.mk (AbstractTab.win_id self) (AbstractTab.tab_id self)
      (TabData.mk (TabData.keep_icon d) (TabData.viewing_source d)
         (TabData.inspector d) ClickTarget.normal (TabData.hint_target d))
      (AbstractTab._widget self) (AbstractTab._progress self)
      (AbstractTab._has_ssl_errors self) (AbstractTab._load_status self) in
  let here := AbstractTab.win_id self in
  (if isValid u then
     match TabData.combined_target d with
     | ClickTarget.normal => r = (Ok None, self, [])
     | ClickTarget.tab => r = (Ok None, reset, [tabopen here u false])
     | ClickTarget.tab_bg => r = (Ok None, reset, [tabopen here u true])
     | ClickTarget.window =>
         let w := MainWindow tt in
         r = (Ok None, reset,
              [MainWindow_new w; MainWindow_show w; tabopen w u false])
     end
   else
     r = (Ok (Some false), reset,
          [message_error here (get_errstring u "Invalid link clicked")]))
  /\ TabData.open_target (AbstractTab.data (Py.final r))
     = (if isValid u then
          match TabData.combined_target d with
          | ClickTarget.normal => TabData.open_target d
          | _ => ClickTarget.normal
          end
        else ClickTarget.normal)
  /\ TabData.hint_target (AbstractTab.data (Py.final r))
     = TabData.hint_target d.
Proof.
  cbv zeta. unfold AbstractTab._on_link_clicked. py_unfold.
  destruct (isValid u); cbn [negb]; [| repeat split].
  destruct (TabData.combined_target _); repeat split.
Qed.

End TabHandlers.

(** A load of an [https] page without and with SSL errors, and a failed
    load, on a tab whose page has a title. *)
Example load_cycle_https :
  let calls := [AbstractTab.on_load_started;
                AbstractTab.on_load_progress 50;
                AbstractTab.on_load_finished true] in
  let r := AbstractTab.deliver (fun _ msg => msg) (fun _ => 1%nat)
             calls example_tab in
  AbstractTab.load_status (Py.final r) = LoadStatus.success_https
  /\ Py.sent r
     = [emit (load_status_changed "loading"); emit load_started;
        emit (load_progress 50);
        emit (load_status_changed "success_https");
        emit (load_finished true)].
Proof. split; reflexivity. Qed.

Example load_cycle_ssl_errors :
  let calls := [AbstractTab.on_load_started;
                AbstractTab.on_ssl_errors;
                AbstractTab.on_load_finished true] in
  let r := AbstractTab.deliver (fun _ msg => msg) (fun _ => 1%nat)
             calls example_tab in
  AbstractTab.load_status (Py.final r) = LoadStatus.warn
  /\ Py.sent r
     = [emit (load_status_changed "loading"); emit load_started;
        emit (load_status_changed "warn"); emit (load_finished true)].
Proof. split; reflexivity. Qed.

(** Without a title, the display string of the URL is announced last. *)
Example load_failed_untitled :
  let page := mkQUrl true "http" "http://example.org/" in
  let self := AbstractTab.mk 0 1 TabData.__init__ (Some (page, Some ""))
                0%Z false LoadStatus.loading in
  AbstractTab._on_load_finished false self
  = (Ok tt, AbstractTab.set_load_status LoadStatus.error self,
     [emit (load_status_changed "error"); emit (load_finished false);
      emit (title_changed "http://example.org/")]).
Proof. reflexivity. Qed.

(** [example_tab] is in the middle of a hint click with target [window]. *)
Example link_clicked_while_hinting :
  let u := mkQUrl true "http" "http://example.org/a" in
  Py.sent (AbstractTab._on_link_clicked (fun _ msg => msg) (fun _ => 9%nat)
             u example_tab)
  = [MainWindow_new 9; MainWindow_show 9; tabopen 9 u false].
Proof. reflexivity. Qed.

(** ** [create] *)

(** C5. [create(win_id, parent)] returns a [WebEngineTab] exactly when the
    registered arguments have [backend == 'webengine'], and a [WebKitTab]
    for every other value of [backend]; in both cases the object is built
    for the given window and parent with that window's mode manager, and
    has the one type under which callers hold a tab. *)
Theorem create_picks_backend {ModeManager QWidget : Type}
    (modeman_instance : nat -> ModeManager) (args : Args)
    (win_id : nat) (parent : option QWidget) :
  let new_tab := create modeman_instance args win_id parent in
  (tab_class new_tab = WebEngineTab <-> backend args = "webengine")
  /\ (tab_class new_tab = WebKitTab <-> backend args <> "webengine")
  /\ ctor_win_id new_tab = win_id
  /\ ctor_mode_manager new_tab = modeman_instance win_id
  /\ ctor_parent new_tab = parent.
Proof.
  cbv zeta. unfold create. cbn [tab_class ctor_win_id ctor_mode_manager ctor_parent].
  destruct (String.eqb_spec (backend args) "webengine") as [Heq | Hne].
  - repeat split; try reflexivity; try (intros _; assumption).
    + discriminate.
    + intros Hne. contradiction.
  - repeat split; try reflexivity; try (intros _; assumption).
    + discriminate.
    + intros Heq. contradiction.
Qed.

(** ** [AbstractZoom.set_factor] *)

Lemma to_int_finite (x : PyFloat.t) :
  PyFloat.is_finite x = true <-> exists n, PyFloat.to_int x = Ok n.
Proof.
  destruct x; cbn; split; eauto; try discriminate;
    intros [n Hn]; discriminate Hn.
Qed.

(** C7, as the code has it.  Take a call in which the conversion
    [int(factor * 100)] is not attempted ([fuzzyval=False]) or succeeds
    with [n] (the product is finite); then the neighbor list's [fuzzyval]
    is [n] in the second case and untouched in the first.  If
    [factor < 0], [set_factor] raises [ValueError] with nothing else
    changed and without calling [_set_factor_internal]: with
    [fuzzyval=True] the zoom is left with [fuzzyval] already [n], with
    [fuzzyval=False] it is left as it was.  If [factor >= 0], it returns
    normally, [_default_zoom_changed] is true and
    [_set_factor_internal(factor)] has been called once. *)
Theorem set_factor_checks_sign (self : AbstractZoom.t) (factor : PyFloat.t)
    (fuzzyval : bool) (n : Z) :
  (fuzzyval = true ->
   PyFloat.to_int (PyFloat.mul factor PyFloat.hundred) = Ok n) ->
  let r := AbstractZoom.set_factor factor fuzzyval self in
  let list1 :=
    if fuzzyval
    then AbstractZoom.mkNeighborList
           (AbstractZoom.items (AbstractZoom._neighborlist self)) (Some n)
    else AbstractZoom._neighborlist self in
  (PyFloat.lt factor PyFloat.zero = true ->
     r = (Raise ValueError,
          AbstractZoom.mk (AbstractZoom._win_id self)
            (AbstractZoom._default_zoom_changed self) list1,
          [])
     /\ (fuzzyval = true ->
         AbstractZoom.fuzzyval (AbstractZoom._neighborlist (Py.final r))
         = Some n)
     /\ (fuzzyval = false -> Py.final r = self))
  /\ (PyFloat.le PyFloat.zero factor = true ->
        r = (Ok tt, AbstractZoom.mk (AbstractZoom._win_id self) true list1,
             [AbstractZoom._set_factor_internal factor])
        /\ AbstractZoom._default_zoom_changed (Py.final r) = true
        /\ (fuzzyval = true ->
            AbstractZoom.fuzzyval (AbstractZoom._neighborlist (Py.final r))
            = Some n)).
Proof.
  intros Hint. cbv zeta. unfold AbstractZoom.set_factor.
  assert (Hsign : PyFloat.le PyFloat.zero factor = true ->
                  PyFloat.lt factor PyFloat.zero = false).
  { destruct factor as [[] | [] | | [] m e]; cbn; congruence. }
  destruct fuzzyval.
  - rewrite (Hint eq_refl). py_unfold. cbn [AbstractZoom.lift app].
    split.
    + intros ->. repeat split. discriminate.
    + intros Hge. rewrite (Hsign Hge). repeat split.
  - py_unfold. cbn [app]. split.
    + intros ->. destruct self. repeat split. discriminate.
    + intros Hge. rewrite (Hsign Hge). repeat split. discriminate.
Qed.

Lemma set_factor_checks_sign_witness :
  AbstractZoom.set_factor minus_half true example_zoom
  = (Raise ValueError,
     AbstractZoom.mk 0 false
       (AbstractZoom.mkNeighborList [50; 100; 200]%Z (Some (-50)%Z)),
     [])
  /\ AbstractZoom.fuzzyval
       (AbstractZoom._neighborlist
          (Py.final (AbstractZoom.set_factor minus_half true example_zoom)))
     = Some (-50)%Z.
Proof.
  pose proof (proj1 (set_factor_checks_sign example_zoom minus_half true
                       (-50)%Z (fun _ => eq_refl))
                    eq_refl) as (Hrun & Hfuzzy & _).
  split; [exact Hrun | exact (Hfuzzy eq_refl)].
Defined.

(** With the default [fuzzyval=True], the factor [-inf] is below zero, but
    the call ends in the [OverflowError] of [int(factor * 100)], not in
    [ValueError], and [fuzzyval] has not been updated; the factor [+inf] is
    not below zero, and the call raises all the same. *)
Lemma set_factor_infinite_factor :
  let r_neg := AbstractZoom.set_factor (S754_infinity true) true example_zoom in
  let r_pos := AbstractZoom.set_factor (S754_infinity false) true example_zoom in
  PyFloat.lt (S754_infinity true) PyFloat.zero = true
  /\ Py.outcome r_neg = Raise OverflowError
  /\ Py.outcome r_neg <> Raise ValueError
  /\ Py.final r_neg = example_zoom
  /\ PyFloat.le PyFloat.zero (S754_infinity false) = true
  /\ Py.outcome r_pos = Raise OverflowError
  /\ AbstractZoom._default_zoom_changed (Py.final r_pos) = false.
Proof. cbv zeta. repeat split; try reflexivity. cbn. discriminate. Qed.

(** The same happens for a finite factor whose hundredfold overflows. *)
Example set_factor_overflowing_product :
  PyFloat.lt minus_max_float PyFloat.zero = true
  /\ PyFloat.mul minus_max_float PyFloat.hundred = S754_infinity true
  /\ AbstractZoom.set_factor minus_max_float true example_zoom
     = (Raise OverflowError, example_zoom, []).
Proof. repeat split; vm_compute; reflexivity. Qed.

(** Without the conversion, the sign check is all there is: [-inf] is
    refused with [ValueError]. *)
Example set_factor_no_fuzzyval :
  AbstractZoom.set_factor (S754_infinity true) false example_zoom
  = (Raise ValueError, example_zoom, []).
Proof. reflexivity. Qed.

Example set_factor_one_and_half :
  AbstractZoom.set_factor one_and_half true example_zoom
  = (Ok tt,
     AbstractZoom.mk 0 true
       (AbstractZoom.mkNeighborList [50; 100; 200]%Z (Some 150%Z)),
     [AbstractZoom._set_factor_internal one_and_half]).
Proof. vm_compute. reflexivity. Qed.

(** ** The request-list steps *)

Section Counting.
Context `{Countable K}.
Implicit Types (xs ys : list K) (c : gmap K nat).

Abbreviation occurrences := (count_occ (fun x y : K => decide (x = y))).

Lemma count_up_lookup xs : forall c (x : K),
  foldl (fun c x => <[x := S (default 0 (c !! x))]> c) c xs !! x
  = match occurrences xs x with
    | 0 => c !! x
    | S k => Some (S k + default 0 (c !! x))
    end.
Proof.
  induction xs as [| y xs IH]; intros c x; [reflexivity |].
  cbn [foldl count_occ]. rewrite IH.
  destruct (decide (y = x)) as [-> | Hne].
  - rewrite lookup_insert_eq. cbn [default id].
    destruct (occurrences xs x); f_equal; lia.
  - rewrite lookup_insert_ne by assumption. reflexivity.
Qed.

Lemma Counter_lookup xs (x : K) :
  conftest.Counter xs !! x
  = match occurrences xs x with 0 => None | S k => Some (S k) end.
Proof.
  unfold conftest.Counter. rewrite count_up_lookup, lookup_empty.
  destruct (occurrences xs x); [reflexivity |]. cbn [default]. f_equal. lia.
Qed.

(** Two counters are equal exactly when the counted lists are
    permutations of each other. *)
Lemma Counter_eq_iff_Permutation xs ys :
  conftest.Counter xs = conftest.Counter ys <-> xs ≡ₚ ys.
Proof.
  rewrite (Permutation_count_occ (fun x y : K => decide (x = y))). split.
  - intros Heq x.
    assert (Hx : conftest.Counter xs !! x = conftest.Counter ys !! x)
      by (rewrite Heq; reflexivity).
    rewrite !Counter_lookup in Hx.
    destruct (occurrences xs x), (occurrences ys x); congruence.
  - intros Hocc. apply map_eq. intros x.
    rewrite !Counter_lookup, (Hocc x). reflexivity.
Qed.

End Counting.

Lemma list_eq_request_eq (actual : list conftest.Request)
    (expected : list conftest.ExpectedRequest) :
  conftest.list_eq conftest.request_eq actual expected = true
  <-> map conftest.from_request actual = expected.
Proof.
  revert expected.
  induction actual as [| r actual IH]; intros [| e expected]; cbn;
    try (split; [discriminate | discriminate]); [tauto |].
  rewrite andb_true_iff, IH. unfold conftest.request_eq, conftest.from_request.
  rewrite andb_true_iff, !String.eqb_eq.
  destruct e as [v p]; cbn. split.
  - intros [[-> ->] ->]. reflexivity.
  - intros [= -> -> ->]. auto.
Qed.

(** C8. With [actual] the requests the test web server has received:
    the step "The requests should be:" passes exactly when [actual],
    request by request in the order received, is the expected list; the
    step "The unordered requests should be:" passes exactly when [actual]
    is a permutation of the expected list, that is, both are the same
    multiset.  (A received request is matched with an expected one by verb
    and path.) *)
Theorem request_steps_compare (actual : list conftest.Request) (pages : string) :
  (conftest.list_of_requests actual pages = conftest.passed
   <-> map conftest.from_request actual = conftest.expected_requests pages)
  /\ (conftest.list_of_requests_unordered actual pages = conftest.passed
      <-> map conftest.from_request actual ≡ₚ conftest.expected_requests pages).
Proof.
  unfold conftest.list_of_requests, conftest.list_of_requests_unordered.
  cbv zeta. split.
  - rewrite <- list_eq_request_eq.
    destruct (conftest.list_eq _ _ _); split; congruence.
  - rewrite <- Counter_eq_iff_Permutation.
    case_bool_decide; split; congruence.
Qed.

Example requests_in_order :
  let actual := [conftest.mkRequest "GET" "/data/hello.txt" 200;
                 conftest.mkRequest "GET" "/data/hello2.txt" 404] in
  let nl := String "010"%char EmptyString in
  conftest.list_of_requests actual
    ("data/hello.txt" +:+ nl +:+ "  data/hello2.txt") = conftest.passed
  /\ conftest.list_of_requests actual
       ("data/hello2.txt" +:+ nl +:+ "data/hello.txt") = conftest.AssertionError
  /\ conftest.list_of_requests_unordered actual
       ("data/hello2.txt" +:+ nl +:+ "data/hello.txt") = conftest.passed
  /\ conftest.list_of_requests_unordered actual
       ("data/hello.txt" +:+ nl +:+ "data/hello.txt") = conftest.AssertionError.
Proof. repeat split; vm_compute; reflexivity. Qed.


(** ** Tab construction *)

Section ConstructionProperties.
Context {W : Type}.
Implicit Types (p : AbstractTab.Process W) (steps : list AbstractTab.Step).

Lemma init_runs (win : nat) p :
  let id := AbstractTab.tab_id_gen p in
  let addr := length (AbstractTab.objects p) in
  let self :=
    AbstractTab.mk win id TabData.__init__ None 0%Z false LoadStatus.none in
  AbstractTab.__init__ win p
  = match AbstractTab.tab_registries p !! win with
    | Some reg =>
        (Ok addr,
         AbstractTab.mkProcess (S id) (AbstractTab.objects p ++ [self])
           (<[win := <[id := addr]> reg]> (AbstractTab.tab_registries p)),
         [])
    | None =>
        (Raise KeyError,
         AbstractTab.mkProcess (S id) (AbstractTab.objects p)
           (AbstractTab.tab_registries p),
         [])
    end.
Proof.
  cbv zeta.
  unfold AbstractTab.__init__, AbstractTab.next_tab_id,
    AbstractTab.objreg_get_tab_registry.
  py_unfold. cbn [AbstractTab.tab_registries AbstractTab.objects
                  AbstractTab.tab_id_gen app].
  destruct (AbstractTab.tab_registries p !! win); reflexivity.
Qed.

Lemma exec_tab_id_gen (st : AbstractTab.Step) p :
  AbstractTab.tab_id_gen (AbstractTab.exec st p)
  = (if AbstractTab.is_construct st then 1 else 0) + AbstractTab.tab_id_gen p.
Proof.
  destruct st as [win | win]; cbn [AbstractTab.exec AbstractTab.is_construct];
    [reflexivity |].
  rewrite init_runs.
  destruct (AbstractTab.tab_registries p !! win); reflexivity.
Qed.

Lemma run_tab_id_gen steps : forall p,
  AbstractTab.tab_id_gen (AbstractTab.run steps p)
  = length (List.filter AbstractTab.is_construct steps)
    + AbstractTab.tab_id_gen p.
Proof.
  induction steps as [| st steps IH]; intros p; [reflexivity |].
  change (AbstractTab.run (st :: steps) p)
    with (AbstractTab.run steps (AbstractTab.exec st p)).
  rewrite IH, exec_tab_id_gen. cbn [List.filter].
  destruct (AbstractTab.is_construct st); cbn [length]; lia.
Qed.

Lemma ids_drawn_seq steps : forall p,
  AbstractTab.ids_drawn steps p
  = seq (AbstractTab.tab_id_gen p)
        (length (List.filter AbstractTab.is_construct steps)).
Proof.
  induction steps as [| [win | win] steps IH]; intros p;
    cbn [AbstractTab.ids_drawn List.filter AbstractTab.is_construct];
    [reflexivity | |].
  - rewrite IH, exec_tab_id_gen. reflexivity.
  - cbn [Py.outcome AbstractTab.next_tab_id]. py_unfold.
    rewrite IH, exec_tab_id_gen. reflexivity.
Qed.

Lemma StronglySorted_snoc (l : list nat) (x : nat) :
  StronglySorted lt l -> Forall (fun y => y < x) l ->
  StronglySorted lt (l ++ [x]).
Proof.
  induction 1 as [| y l Hsorted IH Hy]; intros Hlt; cbn.
  - repeat constructor.
  - apply Forall_cons in Hlt as [Hyx Hlt]. constructor.
    + apply IH, Hlt.
    + apply Forall_app. split; [exact Hy | repeat constructor; exact Hyx].
Qed.

Lemma StronglySorted_lt_NoDup (l : list nat) :
  StronglySorted lt l -> NoDup l.
Proof.
  induction 1 as [| x l Hsorted IH Hx]; constructor; [| exact IH].
  intros Hin. rewrite Forall_forall in Hx. specialize (Hx x Hin). lia.
Qed.

Lemma exec_keeps_ids_in_order (st : AbstractTab.Step) p :
  ids_in_order p -> ids_in_order (AbstractTab.exec st p).
Proof.
  intros (Hsorted & Hbelow & Hreg).
  destruct st as [win | win]; cbn [AbstractTab.exec].
  - split; [exact Hsorted |]. split; [exact Hbelow |].
    intros win' reg id addr. cbn [AbstractTab.tab_registries AbstractTab.objects].
    destruct (decide (win = win')) as [-> | Hne].
    + rewrite lookup_insert_eq. intros [= <-]. rewrite lookup_empty. discriminate.
    + rewrite lookup_insert_ne by assumption. apply Hreg.
  - rewrite init_runs.
    destruct (AbstractTab.tab_registries p !! win) as [reg0 |] eqn:Hwin;
      cbn [Py.final fst snd].
    + split; [| split]; cbn [AbstractTab.objects AbstractTab.tab_id_gen
                              AbstractTab.tab_registries].
      * rewrite map_app. apply StronglySorted_snoc; [exact Hsorted |].
        apply Forall_map, Hbelow.
      * apply Forall_app. split.
        -- eapply Forall_impl; [exact Hbelow |]. cbn. intros; lia.
        -- repeat constructor.
      * intros win' reg id addr.
        destruct (decide (win = win')) as [<- | Hne].
        -- rewrite lookup_insert_eq. intros [= <-].
           destruct (decide (AbstractTab.tab_id_gen p = id)) as [<- | Hid].
           ++ rewrite lookup_insert_eq. intros [= <-].
              eexists. split; [apply list_lookup_middle; reflexivity |].
              split; reflexivity.
           ++ rewrite lookup_insert_ne by assumption. intros Hold.
              destruct (Hreg _ _ _ _ Hwin Hold) as (t & Ht & Hids).
              exists t. split; [| exact Hids].
              apply lookup_app_l_Some, Ht.
        -- rewrite lookup_insert_ne by assumption. intros Hw Hold.
           destruct (Hreg _ _ _ _ Hw Hold) as (t & Ht & Hids).
           exists t. split; [| exact Hids].
           apply lookup_app_l_Some, Ht.
    + split; [exact Hsorted |]. split; [| exact Hreg].
      cbn [AbstractTab.objects AbstractTab.tab_id_gen].
      eapply Forall_impl; [exact Hbelow |]. cbn. intros; lia.
Qed.

Lemma run_keeps_ids_in_order steps : forall p,
  ids_in_order p -> ids_in_order (AbstractTab.run steps p).
Proof.
  induction steps as [| st steps IH]; intros p Hp; [exact Hp |].
  apply (IH (AbstractTab.exec st p)), exec_keeps_ids_in_order, Hp.
Qed.

Lemma startup_ids_in_order : ids_in_order (AbstractTab.startup (W := W)).
Proof.
  repeat split; try constructor.
  intros win reg id addr Hwin. cbn in Hwin. rewrite lookup_empty in Hwin.
  discriminate.
Qed.

End ConstructionProperties.

(** C10. In a process that has gone through any sequence of window
    openings and tab constructions since its start: the constructor calls
    made so far were given the ids [0, 1, 2, ...] in call order, one draw
    of the single shared counter each; the tabs built so far carry strictly
    increasing (hence pairwise distinct) ids, all of them below the
    counter's next value, which is the id the next constructed tab gets, so
    that it differs from every earlier one; and [__init__] enters the new
    tab into the tab registry of its window under exactly that id (it
    raises if the window has no registry).  Every registry entry made this
    way keeps pointing to a tab with the id it is filed under, and after
    the call the ids of all tabs are still pairwise distinct. *)
Theorem tab_ids_fresh_and_registered {W : Type}
    (steps : list AbstractTab.Step) (win : nat) :
  let p := AbstractTab.run steps (AbstractTab.startup (W := W)) in
  let calls := length (List.filter AbstractTab.is_construct steps) in
  let id := AbstractTab.tab_id_gen p in
  let addr := length (AbstractTab.objects p) in
  let new :=
    AbstractTab.mk win id TabData.__init__ None 0%Z false LoadStatus.none in
  AbstractTab.ids_drawn steps (AbstractTab.startup (W := W)) = seq 0 calls
  /\ id = calls
  /\ ids_in_order p
  /\ Forall (fun t => AbstractTab.tab_id t < AbstractTab.tab_id new)
            (AbstractTab.objects p)
  /\ match AbstractTab.tab_registries p !! win with
     | Some reg =>
         AbstractTab.__init__ win p
         = (Ok addr,
            AbstractTab.mkProcess (S id) (AbstractTab.objects p ++ [new])
              (<[win := <[id := addr]> reg]> (AbstractTab.tab_registries p)),
            [])
     | None =>
         AbstractTab.__init__ win p
         = (Raise KeyError,
            AbstractTab.mkProcess (S id) (AbstractTab.objects p)
              (AbstractTab.tab_registries p),
            [])
     end
  /\ ids_in_order (Py.final (AbstractTab.__init__ win p))
  /\ NoDup (map AbstractTab.tab_id
              (AbstractTab.objects (Py.final (AbstractTab.__init__ win p)))).
Proof.
  cbv zeta.
  pose proof (run_keeps_ids_in_order steps _ (startup_ids_in_order (W := W)))
    as Hinv.
  split; [apply (ids_drawn_seq steps AbstractTab.startup) |].
  split; [rewrite run_tab_id_gen; cbn; lia |].
  split; [exact Hinv |].
  split; [exact (proj1 (proj2 Hinv)) |].
  split.
  - rewrite init_runs.
    destruct (AbstractTab.tab_registries _ !! win); reflexivity.
  - pose proof (exec_keeps_ids_in_order (AbstractTab.construct_tab win) _ Hinv)
      as Hafter.
    split; [exact Hafter |].
    apply StronglySorted_lt_NoDup, Hafter.
Qed.

(** One window, three constructor calls, the second of them for a window
    that does not exist: the ids [0] and [2] are in use, filed under
    themselves in the window's registry, and [1] is spent. *)
Example construction_run :
  let steps := [AbstractTab.open_window 3; AbstractTab.construct_tab 3;
                AbstractTab.construct_tab 5; AbstractTab.construct_tab 3] in
  let p := AbstractTab.run steps (AbstractTab.startup (W := unit)) in
  AbstractTab.ids_drawn steps (AbstractTab.startup (W := unit)) = [0; 1; 2]
  /\ map AbstractTab.tab_id (AbstractTab.objects p) = [0; 2]
  /\ AbstractTab.tab_id_gen p = 3
  /\ AbstractTab.tab_registries p !! 3 = Some {[0 := 0; 2 := 1]}.
Proof. repeat split; vm_compute; reflexivity. Qed.

(** ** Histories of slot invocations *)

Section Histories.
Context {W : Type} `{AbstractTab.Impl W}.
Variable get_errstring : QUrl -> string -> string.
Variable MainWindow : unit -> nat.
Implicit Types (self : AbstractTab.t W) (history : list AbstractTab.Call)
  (c : AbstractTab.Call).

Abbreviation dispatch := (AbstractTab.dispatch get_errstring MainWindow).
Abbreviation deliver := (AbstractTab.deliver get_errstring MainWindow).

(** Case analysis on a slot invocation, down to the straight-line code of
    each branch of its handler. *)
Ltac slot_cases c :=
  destruct c as [u | u | | ok | | perc | | hint |];
  cbn [AbstractTab.dispatch];
  [ unfold AbstractTab._on_link_clicked; py_unfold;
    destruct (isValid u); cbn [negb];
    [ destruct (TabData.combined_target _) | ]
  | unfold AbstractTab._on_url_changed; py_unfold; destruct (_ && _)
  | | rewrite load_finished_runs; cbv zeta; destruct (truthy _)
  | | | | | ].

Lemma deliver_step c history self :
  deliver (c :: history) self
  = let r1 := dispatch c self in
    let r2 := deliver history (Py.final r1) in
    (Py.outcome r2, Py.final r2, Py.sent r1 ++ Py.sent r2).
Proof.
  cbn [AbstractTab.deliver]. unfold Py.bind at 1. cbv zeta.
  pose proof (dispatch_returns get_errstring MainWindow c self) as Hok.
  destruct (dispatch c self) as [[r self1] out1]. cbn in Hok. subst r.
  cbn [Py.final Py.sent fst snd].
  destruct (deliver history self1) as [[r2 self2] out2]. reflexivity.
Qed.

Lemma deliver_returns history : forall self,
  Py.outcome (deliver history self) = Ok tt.
Proof.
  induction history as [| c history IH]; intros self; [reflexivity |].
  rewrite deliver_step. cbv zeta. cbn [Py.outcome fst]. apply IH.
Qed.

Lemma dispatch_progress c self :
  AbstractTab._progress (Py.final (dispatch c self))
  = progress_after (AbstractTab._progress self) [c].
Proof. slot_cases c; reflexivity. Qed.

Lemma progress_after_cons (before : Z) c history :
  progress_after before (c :: history)
  = progress_after (progress_after before [c]) history.
Proof. destruct c; reflexivity. Qed.

(** X1. [progress()] follows the backend: after any history of slot
    invocations it returns the percentage of the most recent
    [_on_load_progress], or [0] if a load has started since, and keeps its
    old value if the history reported neither. *)
Theorem progress_tracks_history history : forall self,
  AbstractTab.progress (Py.final (deliver history self))
  = progress_after (AbstractTab.progress self) history.
Proof.
  unfold AbstractTab.progress.
  induction history as [| c history IH]; intros self; [reflexivity |].
  rewrite deliver_step. cbv zeta. cbn [Py.final fst snd].
  rewrite IH, dispatch_progress. symmetry. apply progress_after_cons.
Qed.

Lemma dispatch_keeps_identity c self :
  let after := Py.final (dispatch c self) in
  AbstractTab.win_id after = AbstractTab.win_id self
  /\ AbstractTab.tab_id after = AbstractTab.tab_id self
  /\ AbstractTab._widget after = AbstractTab._widget self
  /\ TabData.keep_icon (AbstractTab.data after)
     = TabData.keep_icon (AbstractTab.data self)
  /\ TabData.inspector (AbstractTab.data after)
     = TabData.inspector (AbstractTab.data self).
Proof. cbv zeta. slot_cases c; repeat split. Qed.

(** X2. No slot of a tab, in whatever order and number they are invoked,
    changes the tab's [win_id], its [tab_id], its widget, or the
    [keep_icon] and [inspector] attributes of its [data]. *)
Theorem slots_keep_identity history : forall self,
  let after := Py.final (deliver history self) in
  AbstractTab.win_id after = AbstractTab.win_id self
  /\ AbstractTab.tab_id after = AbstractTab.tab_id self
  /\ AbstractTab._widget after = AbstractTab._widget self
  /\ TabData.keep_icon (AbstractTab.data after)
     = TabData.keep_icon (AbstractTab.data self)
  /\ TabData.inspector (AbstractTab.data after)
     = TabData.inspector (AbstractTab.data self).
Proof.
  cbv zeta.
  induction history as [| c history IH]; intros self; [repeat split |].
  rewrite deliver_step. cbv zeta. cbn [Py.final fst snd].
  destruct (IH (Py.final (dispatch c self))) as (-> & -> & -> & -> & ->).
  apply dispatch_keeps_identity.
Qed.

Lemma dispatch_relays c self :
  omap relay_signal (Py.sent (dispatch c self)) = omap relayed [c].
Proof. slot_cases c; reflexivity. Qed.

(** X3. A tab passes every backend event on, once and in order: over a
    history whose load percentages are C [int]s (the type of the
    [load_progress] signal and of the slot's argument), the
    [load_started], [load_progress], [load_finished] and [url_changed]
    signals it emits are exactly the corresponding slot invocations of
    that history, with their arguments (an invalid URL is passed on like
    any other). *)
Theorem backend_events_relayed history : forall self,
  Forall fits_qt_types history ->
  omap relay_signal (Py.sent (deliver history self)) = omap relayed history.
Proof.
  induction history as [| c history IH]; intros self Hfits; [reflexivity |].
  apply Forall_cons in Hfits as [_ Hfits].
  rewrite deliver_step. cbv zeta. cbn [Py.sent snd].
  rewrite omap_app, (IH _ Hfits), dispatch_relays.
  change (c :: history) with ([c] ++ history). rewrite omap_app. reflexivity.
Qed.

Lemma dispatch_announces c self :
  let r := dispatch c self in
  omap status_signal (Py.sent r)
  = (if is_load_event c
     then [LoadStatus.name (AbstractTab.load_status (Py.final r))]
     else [])
  /\ (if is_load_event c then True
      else AbstractTab.load_status (Py.final r) = AbstractTab.load_status self).
Proof. cbv zeta. slot_cases c; split; reflexivity. Qed.

(** X4. Whoever listens to [load_status_changed] knows the load status:
    over any history, the status named by the last announcement (the
    status from before the history, if nothing was announced) is the one
    [load_status()] returns; and there is exactly one announcement per load
    start and per load end, none for any other slot. *)
Theorem load_status_announced history : forall self,
  let r := deliver history self in
  let announced := omap status_signal (Py.sent r) in
  LoadStatus.name (AbstractTab.load_status (Py.final r))
  = default (LoadStatus.name (AbstractTab.load_status self)) (last announced)
  /\ length announced = length (List.filter is_load_event history).
Proof.
  cbv zeta.
  induction history as [| c history IH]; intros self; [split; reflexivity |].
  rewrite deliver_step. cbv zeta. cbn [Py.final Py.sent fst snd].
  destruct (IH (Py.final (dispatch c self))) as [IHname IHlen].
  destruct (dispatch_announces c self) as [Hc Hsame].
  rewrite omap_app, last_app, length_app, IHlen, IHname, Hc.
  cbn [List.filter].
  destruct (is_load_event c); cbn [length].
  - split; [| reflexivity].
    destruct (last (omap status_signal _)); reflexivity.
  - split; [| reflexivity].
    destruct (last (omap status_signal _)); [reflexivity |].
    cbn. rewrite Hsame. reflexivity.
Qed.

Lemma dispatch_titled c self :
  (forall t : AbstractTab.t W, truthy (AbstractTab.title t) = true) ->
  List.filter is_title_changed (Py.sent (dispatch c self)) = [].
Proof.
  intros Htitled.
  destruct c as [u | u | | ok | | perc | | hint |];
    cbn [AbstractTab.dispatch]; try reflexivity.
  - unfold AbstractTab._on_link_clicked. py_unfold.
    destruct (isValid u); cbn [negb]; [| reflexivity].
    destruct (TabData.combined_target _); reflexivity.
  - unfold AbstractTab._on_url_changed. py_unfold.
    rewrite Htitled, andb_false_r. reflexivity.
  - rewrite load_finished_runs. cbv zeta. rewrite Htitled. reflexivity.
Qed.

(** X5. For a page that has a title, no slot ever announces the URL in
    its place: if the backend's [title()] is never empty, no history of
    slot invocations makes the tab emit [title_changed]. *)
Theorem titled_page_keeps_title history : forall self,
  (forall t : AbstractTab.t W, truthy (AbstractTab.title t) = true) ->
  List.filter is_title_changed (Py.sent (deliver history self)) = [].
Proof.
  induction history as [| c history IH]; intros self Htitled; [reflexivity |].
  rewrite deliver_step. cbv zeta. cbn [Py.sent snd].
  rewrite List.filter_app, (dispatch_titled c self Htitled), (IH _ Htitled).
  reflexivity.
Qed.

(** X6. A click made while hinting goes by the hint target alone,
    whatever [open_target] says: with the slots invoked as the hint
    manager does (start hinting with target [t], the click, stop
    hinting), a valid URL is opened as [t] prescribes, and afterwards
    [hint_target] is [None] again.  [open_target] ends up [normal], except
    that a hint click with target [normal] leaves it as it was. *)
Theorem hint_click_goes_by_hint_target self (t : ClickTarget.t) (u : QUrl) :
  let r := deliver [AbstractTab.on_start_hinting t;
                    AbstractTab.on_link_clicked u;
                    AbstractTab.on_stop_hinting] self in
  let d := AbstractTab.data (Py.final r) in
  let here := AbstractTab.win_id self in
  Py.outcome r = Ok tt
  /\ TabData.hint_target d = None
  /\ if isValid u then
       match t with
       | ClickTarget.normal =>
           Py.sent r = []
           /\ TabData.open_target d = TabData.open_target (AbstractTab.data self)
       | ClickTarget.tab =>
           Py.sent r = [tabopen here u false]
           /\ TabData.open_target d = ClickTarget.normal
       | ClickTarget.tab_bg =>
           Py.sent r = [tabopen here u true]
           /\ TabData.open_target d = ClickTarget.normal
       | ClickTarget.window =>
           let w := MainWindow tt in
           Py.sent r = [MainWindow_new w; MainWindow_show w; tabopen w u false]
           /\ TabData.open_target d = ClickTarget.normal
       end
     else
       Py.sent r
       = [message_error here (get_errstring u "Invalid link clicked")]
       /\ TabData.open_target d = ClickTarget.normal.
Proof.
  cbv zeta. cbn [AbstractTab.deliver AbstractTab.dispatch].
  unfold AbstractTab._on_link_clicked. py_unfold.
  cbn [AbstractTab.data AbstractTab.set_data AbstractTab.win_id
       TabData._on_start_hinting TabData.set_hint_target
       TabData.combined_target TabData.hint_target].
  destruct (isValid u); cbn [negb]; [destruct t |]; repeat split.
Qed.

End Histories.

Lemma titled_page_keeps_title_witness :
  List.filter is_title_changed
    (Py.sent (AbstractTab.deliver (H := TitledImpl)
                (fun _ msg => msg) (fun _ => 1)
                [AbstractTab.on_load_started;
                 AbstractTab.on_url_changed (mkQUrl true "http" "http://a/");
                 AbstractTab.on_load_finished true]
                (AbstractTab.mk 0 0 TabData.__init__ None 0%Z false
                   LoadStatus.none)))
  = [].
Proof.
  apply (titled_page_keeps_title (H := TitledImpl)).
  intros t. reflexivity.
Defined.

Lemma backend_events_relayed_witness :
  omap relay_signal
    (Py.sent (AbstractTab.deliver (fun _ msg => msg) (fun _ => 1)
                [AbstractTab.on_load_started;
                 AbstractTab.on_load_progress 50;
                 AbstractTab.on_url_changed (mkQUrl false "" "");
                 AbstractTab.on_ssl_errors;
                 AbstractTab.on_load_finished true]
                example_tab))
  = [load_started; load_progress 50; url_changed (mkQUrl false "" "");
     load_finished true].
Proof.
  apply (backend_events_relayed (fun _ msg => msg) (fun _ => 1)).
  repeat (apply Forall_cons; split; [cbn; try lia; exact I |]).
  constructor.
Defined.

(** ** The zoom and the configuration *)

Lemma is_zoom_setting_spec (section option : string) :
  is_zoom_setting section option
  <-> String.eqb section "ui"
      && (String.eqb option "zoom-levels" || String.eqb option "default-zoom")
      = true.
Proof.
  unfold is_zoom_setting.
  rewrite andb_true_iff, orb_true_iff, !String.eqb_eq. reflexivity.
Qed.

Lemma zoom_setting_changed_runs (cfg : AbstractZoom.Config)
    (section option : string) (self : AbstractZoom.t) :
  is_zoom_setting section option ->
  AbstractZoom._on_config_changed cfg section option self
  = match AbstractZoom._default_zoom_changed self,
          AbstractZoom.percent_factor (AbstractZoom.default_zoom cfg) with
    | true, _ =>
        (Ok tt, AbstractZoom.__init__ cfg (AbstractZoom._win_id self), [])
    | false, Ok factor =>
        (Ok tt, AbstractZoom.__init__ cfg (AbstractZoom._win_id self),
         [AbstractZoom._set_factor_internal factor])
    | false, Raise e => (Raise e, self, [])
    end.
Proof.
  intros Hzoom. apply is_zoom_setting_spec in Hzoom.
  unfold AbstractZoom._on_config_changed. rewrite Hzoom. py_unfold.
  destruct (AbstractZoom._default_zoom_changed self) eqn:Hflag; cbn [negb].
  - destruct self; cbn in *; subst; reflexivity.
  - unfold AbstractZoom.lift.
    destruct (AbstractZoom.percent_factor _); [| reflexivity].
    destruct self; cbn in *; subst; reflexivity.
Qed.

(** X7. [_on_config_changed] ignores every setting but [ui -> zoom-levels]
    and [ui -> default-zoom].  For these two it puts the zoom back into the
    state of a newly constructed one (zoom not changed from the default,
    neighbor list rebuilt from the configuration), and it applies the
    configured default zoom to the widget only if the zoom had not been
    changed from the default before.  If the default cannot be converted,
    the call raises with the zoom untouched. *)
Theorem config_change_resets_zoom (cfg : AbstractZoom.Config)
    (section option : string) (self : AbstractZoom.t) :
  let r := AbstractZoom._on_config_changed cfg section option self in
  let fresh := AbstractZoom.__init__ cfg (AbstractZoom._win_id self) in
  (~ is_zoom_setting section option -> r = (Ok tt, self, []))
  /\ (is_zoom_setting section option ->
      r = match AbstractZoom._default_zoom_changed self,
                AbstractZoom.percent_factor (AbstractZoom.default_zoom cfg) with
          | true, _ => (Ok tt, fresh, [])
          | false, Ok factor =>
              (Ok tt, fresh, [AbstractZoom._set_factor_internal factor])
          | false, Raise e => (Raise e, self, [])
          end).
Proof.
  cbv zeta. split.
  - rewrite is_zoom_setting_spec. intros Hother.
    unfold AbstractZoom._on_config_changed.
    destruct (String.eqb section "ui" && _); [congruence | reflexivity].
  - apply zoom_setting_changed_runs.
Qed.

Lemma config_change_resets_zoom_witness :
  AbstractZoom._on_config_changed example_config "ui" "default-zoom" example_zoom
  = (Ok tt, AbstractZoom.__init__ example_config 0,
     [AbstractZoom._set_factor_internal one]).
Proof.
  refine (proj2 (config_change_resets_zoom example_config
                   "ui" "default-zoom" example_zoom) _).
  split; [reflexivity | right; reflexivity].
Defined.

Lemma set_factor_marks_changed (self : AbstractZoom.t) (factor : PyFloat.t)
    (fuzzyval : bool) :
  let r := AbstractZoom.set_factor factor fuzzyval self in
  Py.outcome r = Ok tt ->
  AbstractZoom._default_zoom_changed (Py.final r) = true
  /\ AbstractZoom._win_id (Py.final r) = AbstractZoom._win_id self
  /\ Py.sent r = [AbstractZoom._set_factor_internal factor].
Proof.
  cbv zeta. unfold AbstractZoom.set_factor, AbstractZoom.lift. py_unfold.
  destruct fuzzyval.
  - destruct (PyFloat.to_int _); [| discriminate].
    destruct (PyFloat.lt factor PyFloat.zero); [discriminate |].
    repeat split.
  - destruct (PyFloat.lt factor PyFloat.zero); [discriminate |].
    repeat split.
Qed.

(** X8. A zoom the user has set survives one change of the zoom
    settings, and only one: after a [set_factor] that went through, the
    next change of [zoom-levels] or [default-zoom] does not touch the
    widget (it only rebuilds the list and forgets that the zoom was
    changed), so that the change after it applies the configured default
    zoom. *)
Theorem user_zoom_survives_one_config_change (self : AbstractZoom.t)
    (factor : PyFloat.t) (fuzzyval : bool)
    (cfg1 cfg2 : AbstractZoom.Config) (option1 option2 : string)
    (default2 : PyFloat.t) :
  let zoomed := AbstractZoom.set_factor factor fuzzyval self in
  let r1 := AbstractZoom._on_config_changed cfg1 "ui" option1
              (Py.final zoomed) in
  let r2 := AbstractZoom._on_config_changed cfg2 "ui" option2 (Py.final r1) in
  Py.outcome zoomed = Ok tt ->
  is_zoom_setting "ui" option1 ->
  is_zoom_setting "ui" option2 ->
  AbstractZoom.percent_factor (AbstractZoom.default_zoom cfg2) = Ok default2 ->
  r1 = (Ok tt, AbstractZoom.__init__ cfg1 (AbstractZoom._win_id self), [])
  /\ r2 = (Ok tt, AbstractZoom.__init__ cfg2 (AbstractZoom._win_id self),
           [AbstractZoom._set_factor_internal default2]).
Proof.
  cbv zeta. intros Hok Hopt1 Hopt2 Hdefault.
  destruct (set_factor_marks_changed self factor fuzzyval Hok)
    as (Hflag & Hwin & _).
  pose proof (zoom_setting_changed_runs cfg1 "ui" option1
                (Py.final (AbstractZoom.set_factor factor fuzzyval self))
                Hopt1) as H1.
  rewrite Hflag, Hwin in H1. rewrite H1.
  split; [reflexivity |].
  cbn [Py.final fst snd].
  pose proof (zoom_setting_changed_runs cfg2 "ui" option2
                (AbstractZoom.__init__ cfg1 (AbstractZoom._win_id self))
                Hopt2) as H2.
  cbn [AbstractZoom.__init__ AbstractZoom._init_neighborlist
                       AbstractZoom._default_zoom_changed AbstractZoom._win_id]
    in H2.
  rewrite Hdefault in H2. exact H2.
Qed.

Lemma user_zoom_survives_one_config_change_witness :
  let zoomed := AbstractZoom.set_factor one_and_half true example_zoom in
  let r1 := AbstractZoom._on_config_changed example_config "ui" "zoom-levels"
              (Py.final zoomed) in
  let r2 := AbstractZoom._on_config_changed example_config "ui" "default-zoom"
              (Py.final r1) in
  r1 = (Ok tt, AbstractZoom.__init__ example_config 0, [])
  /\ r2 = (Ok tt, AbstractZoom.__init__ example_config 0,
           [AbstractZoom._set_factor_internal one]).
Proof.
  refine (user_zoom_survives_one_config_change example_zoom one_and_half true
            example_config example_config "zoom-levels" "default-zoom" one
            _ _ _ _).
  - reflexivity.
  - split; [reflexivity | left; reflexivity].
  - split; [reflexivity | right; reflexivity].
  - reflexivity.
Defined.

(** ** Strings *)

Lemma app_String (c : ascii) (a b : string) :
  String c a +:+ b = String c (a +:+ b).
Proof. reflexivity. Qed.

Lemma app_empty_r (a : string) : a +:+ "" = a.
Proof.
  induction a as [| c a IH]; [reflexivity |]. rewrite app_String, IH.
  reflexivity.
Qed.

Lemma app_assoc_str (a b c : string) : (a +:+ b) +:+ c = a +:+ (b +:+ c).
Proof.
  induction a as [| x a IH]; [reflexivity |]. rewrite !app_String, IH.
  reflexivity.
Qed.

Lemma str_drop_app (p s : string) :
  conftest.str_drop (String.length p) (p +:+ s) = s.
Proof.
  induction p as [| c p IH]; [destruct s; reflexivity |].
  rewrite app_String. cbn [String.length conftest.str_drop]. exact IH.
Qed.

Lemma str_take_app (p s : string) :
  conftest.str_take (String.length p) (p +:+ s) = p.
Proof.
  induction p as [| c p IH]; [destruct s; reflexivity |].
  rewrite app_String. cbn [String.length conftest.str_take].
  f_equal. exact IH.
Qed.

Lemma str_take_drop (n : nat) (s : string) :
  conftest.str_take n s +:+ conftest.str_drop n s = s.
Proof.
  revert s. induction n as [| n IH]; intros [| c s];
    cbn [conftest.str_take conftest.str_drop]; try reflexivity.
  rewrite app_String, IH. reflexivity.
Qed.

Lemma str_length_app (p s : string) :
  String.length (p +:+ s) = String.length p + String.length s.
Proof.
  induction p as [| c p IH]; [reflexivity |].
  rewrite app_String. cbn [String.length]. rewrite IH. reflexivity.
Qed.

Lemma endswith_app (p suffix : string) :
  conftest.endswith (p +:+ suffix) suffix = true.
Proof.
  unfold conftest.endswith. rewrite str_length_app.
  replace (String.length p + String.length suffix - String.length suffix)
    with (String.length p) by lia.
  rewrite str_drop_app, String.eqb_refl, andb_true_r.
  apply Nat.leb_le. lia.
Qed.

Lemma drop_last_app (p suffix : string) :
  conftest.drop_last (String.length suffix) (p +:+ suffix) = p.
Proof.
  unfold conftest.drop_last. rewrite str_length_app.
  replace (String.length p + String.length suffix - String.length suffix)
    with (String.length p) by lia.
  apply str_take_app.
Qed.

Lemma endswith_inv (s suffix : string) :
  conftest.endswith s suffix = true ->
  conftest.drop_last (String.length suffix) s +:+ suffix = s.
Proof.
  unfold conftest.endswith, conftest.drop_last.
  rewrite andb_true_iff, String.eqb_eq. intros [_ Hdrop].
  rewrite <- Hdrop at 2. apply str_take_drop.
Qed.

(** The string builtins on the inputs where they are easiest to get
    wrong: overlapping separators, a separator at either end, line ends of
    two characters, a final line end. *)
Example string_builtins :
  let nl := String "010"%char EmptyString in
  let cr := String "013"%char EmptyString in
  conftest.split_on "aa" "aaaaa" = [""; ""; "a"]
  /\ conftest.split_on "ab" "abab" = [""; ""; ""]
  /\ conftest.split_on " with count " "" = [""]
  /\ conftest.replace "aa" "b" "aaaaa" = "bba"
  /\ conftest.replace "(port)" "80" "(port(port)" = "(port80"
  /\ conftest.splitlines ("a" +:+ nl +:+ "b" +:+ cr +:+ nl +:+ cr +:+ "c" +:+ nl)
     = ["a"; "b"; ""; "c"]
  /\ conftest.splitlines "" = []
  /\ conftest.splitlines (nl +:+ cr) = [""; ""]
  /\ conftest.endswith "abc" "" = true
  /\ conftest.endswith "bc" "abc" = false
  /\ conftest.contains "" "" = true
  /\ conftest.parse_tab_line "  - data/hello.txt (active) "
     = ("data/hello.txt", true).
Proof. repeat split; vm_compute; reflexivity. Qed.

(** X9. The step "When I open PATH in a new tab" opens [PATH] in a new
    tab: the suffix is cut off and [new_tab] is set.  In general the path
    that is opened, followed by the suffix if [new_tab] is set, is the
    text of the step.  The "Given I open ..." step does not look for the
    suffix: it always opens its whole text in a new tab. *)
Theorem open_path_new_tab_suffix (p text : string) :
  conftest.open_path (p +:+ " in a new tab")
  = conftest.quteproc_open_path p true
  /\ (exists opened new_tab,
        conftest.open_path text = conftest.quteproc_open_path opened new_tab
        /\ opened +:+ (if new_tab then " in a new tab" else "") = text)
  /\ conftest.open_path_given (p +:+ " in a new tab")
     = conftest.quteproc_open_path (p +:+ " in a new tab") true.
Proof.
  split; [| split; [| reflexivity]].
  - unfold conftest.open_path. cbv zeta.
    rewrite endswith_app, drop_last_app. reflexivity.
  - unfold conftest.open_path. cbv zeta.
    destruct (conftest.endswith text " in a new tab") eqn:Hends.
    + eexists _, true. split; [reflexivity |]. apply endswith_inv, Hends.
    + exists text, false. split; [reflexivity |].
      apply app_empty_r.
Qed.

Lemma contains_String (sub : string) (c : ascii) (s : string) :
  conftest.contains sub (String c s)
  = String.prefix sub (String c s) || conftest.contains sub s.
Proof. reflexivity. Qed.

Lemma prefix_app (a s : string) : String.prefix a (a +:+ s) = true.
Proof.
  induction a as [| c a IH]; [destruct s; reflexivity |].
  rewrite app_String. cbn [String.prefix].
  destruct (ascii_dec c c); [exact IH | contradiction].
Qed.

(** Whether [a] is a prefix only depends on as many characters as [a]
    has. *)
Lemma prefix_app_long (a : string) : forall y z : string,
  String.length a <= String.length y ->
  String.prefix a (y +:+ z) = String.prefix a y.
Proof.
  induction a as [| c a IH]; intros [| d y] z Hlen.
  - destruct z; reflexivity.
  - reflexivity.
  - cbn in Hlen. lia.
  - rewrite app_String. cbn [String.prefix].
    destruct (ascii_dec c d); [| reflexivity].
    apply IH. cbn in Hlen. lia.
Qed.

Lemma contains_app_r (sub x y : string) :
  conftest.contains sub y = true -> conftest.contains sub (x +:+ y) = true.
Proof.
  intros Hy. induction x as [| c x IH]; [exact Hy |].
  rewrite app_String, contains_String, IH. apply orb_true_r.
Qed.

Lemma split_absent (sep : string) : forall s : string,
  conftest.contains sep s = false -> conftest.split_on sep s = [s].
Proof.
  unfold conftest.split_on.
  induction s as [| c s IH]; intros Habsent; [reflexivity |].
  rewrite contains_String in Habsent.
  apply orb_false_iff in Habsent as [Hhere Hlater].
  cbn [conftest.split_go]. rewrite Hhere, (IH Hlater). reflexivity.
Qed.

Lemma replace_absent (old new : string) : forall s : string,
  conftest.contains old s = false -> conftest.replace old new s = s.
Proof.
  unfold conftest.replace.
  induction s as [| c s IH]; intros Habsent; [reflexivity |].
  rewrite contains_String in Habsent.
  apply orb_false_iff in Habsent as [Hhere Hlater].
  cbn [conftest.replace_go]. rewrite Hhere, (IH Hlater). reflexivity.
Qed.

Lemma split_go_skip (sep p : string) : forall s : string,
  conftest.split_go sep (String.length p) (p +:+ s)
  = conftest.split_go sep 0 s.
Proof.
  induction p as [| c p IH]; intros s; [reflexivity |].
  rewrite app_String. cbn [String.length conftest.split_go]. apply IH.
Qed.

Lemma split_at_sep (c : ascii) (sep' s : string) :
  conftest.split_on (String c sep') (String c sep' +:+ s)
  = "" :: conftest.split_on (String c sep') s.
Proof.
  unfold conftest.split_on.
  pose proof (prefix_app (String c sep') s) as Hprefix.
  rewrite app_String in *. cbn [conftest.split_go]. rewrite Hprefix.
  replace (String.length (String c sep') - 1) with (String.length sep')
    by (cbn [String.length]; lia).
  rewrite split_go_skip. reflexivity.
Qed.

(** If the separator does not begin anywhere inside [before], the first
    piece of the split is [before].  [init] is the separator without its
    last character [l]. *)
Lemma split_first_piece (init : string) (l : ascii) (s : string) :
  let sep := init +:+ String l "" in
  forall before : string,
  conftest.contains sep (before +:+ init) = false ->
  conftest.split_on sep (before +:+ sep +:+ s)
  = before :: conftest.split_on sep s.
Proof.
  cbv zeta. induction before as [| c before IH]; intros Habsent.
  - destruct init as [| c0 init']; apply (split_at_sep _ _ s).
  - rewrite app_String, contains_String in Habsent.
    apply orb_false_iff in Habsent as [Hhere Hlater].
    unfold conftest.split_on in *. rewrite app_String.
    cbn [conftest.split_go].
    assert (Hno : String.prefix (init +:+ String l "")
                    (String c (before +:+ (init +:+ String l "") +:+ s))
                  = false).
    { rewrite <- Hhere, <- !app_String, <- !app_assoc_str.
      rewrite (app_assoc_str _ (String l "") s).
      apply prefix_app_long.
      rewrite !str_length_app. cbn [String.length]. lia. }
    rewrite Hno, (IH Hlater). reflexivity.
Qed.

(** X10. In the step "When I run ...", a text that contains [with count]
    but not set off by blanks on both sides (the count glued to it, or
    nothing after it) makes [run_command] raise [ValueError], since the
    split does not yield a command and a count; nothing is sent to the
    browser. *)
Theorem run_command_needs_blanks (int : string -> result Z)
    (port command : string) :
  conftest.contains "with count" command = true ->
  conftest.contains " with count " command = false ->
  conftest.run_command int port command = Raise ValueError.
Proof.
  intros Hcount Hblanks. unfold conftest.run_command.
  rewrite Hcount, (split_absent _ _ Hblanks). reflexivity.
Qed.

Lemma run_command_needs_blanks_witness :
  conftest.run_command int_of_digits "8080" "scroll down with count3"
  = Raise ValueError.
Proof.
  apply run_command_needs_blanks; reflexivity.
Defined.

(** X11. "When I run COMMAND with count N" sends [COMMAND] with the count
    [int(N)], or raises what [int] raises; [(port)] is replaced in the
    command only.  This holds when the [" with count "] before [N] is the
    first one in the text and [N] contains no further one. *)
Theorem run_command_with_count (int : string -> result Z)
    (port command count : string) :
  conftest.contains " with count " (command +:+ " with count") = false ->
  conftest.contains " with count " count = false ->
  conftest.run_command int port (command +:+ " with count " +:+ count)
  = match int count with
    | Ok n =>
        Ok (conftest.quteproc_send_cmd
              (conftest.replace "(port)" port command) (Some n))
    | Raise e => Raise e
    end.
Proof.
  intros Hfirst Hlast. unfold conftest.run_command.
  assert (Hcount : conftest.contains "with count"
                     (command +:+ " with count " +:+ count) = true).
  { apply contains_app_r. destruct count; reflexivity. }
  rewrite Hcount.
  pose proof (split_first_piece " with count" " " count command Hfirst)
    as Hsplit.
  change (" with count" +:+ " ") with " with count " in Hsplit.
  rewrite Hsplit, (split_absent _ _ Hlast). reflexivity.
Qed.

Lemma run_command_with_count_witness :
  conftest.run_command int_of_digits "8080"
    ("open http://localhost:(port)/" +:+ " with count " +:+ "12")
  = Ok (conftest.quteproc_send_cmd "open http://localhost:8080/" (Some 12%Z)).
Proof.
  apply (run_command_with_count int_of_digits "8080"
           "open http://localhost:(port)/" "12"); reflexivity.
Defined.

(** X12. A text without [with count] and without [(port)] is sent to the
    browser as it is, with no count. *)
Theorem run_command_verbatim (int : string -> result Z)
    (port command : string) :
  conftest.contains "with count" command = false ->
  conftest.contains "(port)" command = false ->
  conftest.run_command int port command
  = Ok (conftest.quteproc_send_cmd command None).
Proof.
  intros Hcount Hport. unfold conftest.run_command.
  rewrite Hcount, (replace_absent _ _ _ Hport). reflexivity.
Qed.

Lemma run_command_verbatim_witness :
  conftest.run_command int_of_digits "8080" "tab-close"
  = Ok (conftest.quteproc_send_cmd "tab-close" None).
Proof.
  apply run_command_verbatim; reflexivity.
Defined.

(** ** The open-tabs check *)

Section OpenTabs.
Variable path_to_url : string -> string.
Implicit Types (session_tab : conftest.SessionTab) (line : string)
  (lines : list string) (session_tabs : list conftest.SessionTab).

Lemma check_tab_passes session_tab line :
  conftest.check_tab path_to_url session_tab line = conftest.check_passed
  <-> tab_matches path_to_url session_tab line.
Proof.
  unfold conftest.check_tab, tab_matches.
  destruct (conftest.parse_tab_line line) as [path active]. cbn [fst snd].
  destruct (last (conftest.tab_history session_tab)) as [item |].
  - destruct (String.eqb_spec (conftest.item_url item) (path_to_url path))
      as [Hurl | Hurl]; cbn [negb].
    + destruct active, (conftest.tab_active session_tab) as [[] |];
        (split; [intros Hpass; try discriminate Hpass; eauto
                | intros (item' & [= <-] & _ & Hactive);
                  try discriminate Hactive; reflexivity]).
    + split; [discriminate |]. intros (item' & [= <-] & Hurl' & _).
      contradiction.
  - split; [discriminate |]. intros (item' & Hnone & _). discriminate.
Qed.

Lemma check_tabs_from_passes lines : forall (i : nat) session_tabs,
  conftest.check_tabs_from path_to_url i session_tabs lines
  = conftest.check_passed
  <-> Forall2 (tab_matches path_to_url)
        (take (length lines) (drop i session_tabs)) lines.
Proof.
  induction lines as [| line lines IH]; intros i session_tabs.
  - cbn. split; [constructor | reflexivity].
  - cbn [conftest.check_tabs_from length].
    destruct (session_tabs !! i) as [session_tab |] eqn:Hi.
    + rewrite (drop_S _ _ _ Hi). cbn [take].
      rewrite Forall2_cons, <- IH, <- check_tab_passes.
      destruct (conftest.check_tab path_to_url session_tab line);
        split; try tauto; try discriminate.
    + rewrite drop_ge by (apply lookup_ge_None; exact Hi).
      split; [discriminate |]. intros Hall. inversion Hall.
Qed.

(** The check in terms of the lines as [parse_tab_line] reads them. *)
Lemma check_open_tabs_by_lines (session : conftest.Session) (tabs : string) :
  conftest.check_open_tabs path_to_url session tabs = conftest.check_passed
  <-> exists w,
        conftest.session_windows session = [w]
        /\ Forall2 (tab_matches path_to_url)
             (conftest.window_tabs w) (conftest.splitlines tabs).
Proof.
  unfold conftest.check_open_tabs. cbv zeta.
  destruct (conftest.session_windows session) as [| w [| w' more]];
    cbn [length Nat.eqb negb lookup list_lookup].
  - split; [discriminate |]. intros (w & Hw & _). discriminate Hw.
  - destruct (Nat.eqb_spec (length (conftest.window_tabs w))
                (length (conftest.splitlines tabs))) as [Hlen | Hlen];
      cbn [negb].
    + rewrite check_tabs_from_passes, drop_0, <- Hlen, firstn_all. split.
      * intros Hall. exists w. split; [reflexivity | exact Hall].
      * intros (w0 & [= <-] & Hall). exact Hall.
    + split; [discriminate |]. intros (w0 & [= <-] & Hall).
      apply Forall2_length in Hall. contradiction.
  - split; [discriminate |]. intros (w0 & Hw & _). discriminate Hw.
Qed.

Lemma parse_written line (e : TabLine) :
  written_as line e ->
  conftest.parse_tab_line line = (line_path e, line_active e).
Proof.
  intros (Hstrip & Hmarker & Hplain).
  unfold conftest.parse_tab_line. cbv zeta. rewrite Hstrip.
  rewrite <- Hmarker, str_drop_app.
  destruct (line_active e).
  - rewrite endswith_app, drop_last_app. reflexivity.
  - rewrite app_empty_r.
    destruct (conftest.endswith (line_path e) " (active)") eqn:Hends;
      [| reflexivity].
    apply endswith_inv in Hends. symmetry in Hends.
    destruct (Hplain eq_refl _ Hends).
Qed.

Lemma written_tab_matches session_tab line (e : TabLine) :
  written_as line e ->
  tab_matches path_to_url session_tab line
  <-> tab_shows path_to_url session_tab e.
Proof.
  intros Hwritten. unfold tab_matches, tab_shows.
  rewrite (parse_written line e Hwritten). reflexivity.
Qed.

Lemma written_tabs_match lines (entries : list TabLine) :
  Forall2 written_as lines entries ->
  forall session_tabs,
  Forall2 (tab_matches path_to_url) session_tabs lines
  <-> Forall2 (tab_shows path_to_url) session_tabs entries.
Proof.
  induction 1 as [| line e lines entries Hwritten _ IH];
    intros [| session_tab session_tabs].
  - split; constructor.
  - split; intros Hall; inversion Hall.
  - split; intros Hall; inversion Hall.
  - split; intros Hall; inversion Hall; subst; constructor;
      try (apply IH; assumption);
      eapply written_tab_matches; eassumption.
Qed.

(** X13. Take a step text in the ASCII range whose lines, once stripped,
    are each a two-character marker, a path and, for the active tab,
    [" (active)"].  The step "the following tabs should be open:" passes
    exactly when the session has one window and that window's tabs
    correspond, one by one and in order, to these lines: the last URL in
    the tab's history is the line's path made into a URL, and the tab
    carries a true ['active'] entry if the line is the active one and no
    ['active'] entry at all if it is not. *)
Theorem check_open_tabs_passes (session : conftest.Session) (tabs : string)
    (entries : list TabLine) :
  is_ascii tabs = true ->
  Forall2 written_as (conftest.splitlines tabs) entries ->
  conftest.check_open_tabs path_to_url session tabs = conftest.check_passed
  <-> exists w,
        conftest.session_windows session = [w]
        /\ Forall2 (tab_shows path_to_url) (conftest.window_tabs w) entries.
Proof.
  intros _ Hwritten. rewrite check_open_tabs_by_lines.
  split; intros (w & Hw & Hall); exists w; (split; [exact Hw |]);
    apply (written_tabs_match _ _ Hwritten); exact Hall.
Qed.

End OpenTabs.

Lemma not_marked_active (path : string) :
  String.length path < 9 -> forall p : string, path <> p +:+ " (active)".
Proof.
  intros Hshort p Heq. apply (f_equal String.length) in Heq.
  rewrite str_length_app in Heq. cbn [String.length] in Heq. lia.
Qed.

Lemma check_open_tabs_passes_witness :
  let nl := String "010"%char EmptyString in
  let to_url := fun p : string => "http://localhost/" +:+ p in
  let session :=
    conftest.mkSession
      [conftest.mkSessionWindow
         [conftest.mkSessionTab
            [conftest.mkHistoryItem "about:blank";
             conftest.mkHistoryItem "http://localhost/a.txt"] None;
          conftest.mkSessionTab
            [conftest.mkHistoryItem "http://localhost/(active)"]
            (Some true)]] in
  conftest.check_open_tabs to_url session
    ("- a.txt" +:+ nl +:+ "  - (active) (active)")
  = conftest.check_passed.
Proof.
  cbv zeta.
  refine (proj2 (check_open_tabs_passes
                   (fun p : string => "http://localhost/" +:+ p)
                   (conftest.mkSession _)
                   ("- a.txt" +:+ String "010"%char EmptyString
                      +:+ "  - (active) (active)")
                   [mkTabLine "- " "a.txt" false;
                    mkTabLine "- " "(active)" true] _ _) _).
  - reflexivity.
  - replace (conftest.splitlines _)
      with ["- a.txt"; "  - (active) (active)"] by (vm_compute; reflexivity).
    constructor; [| constructor; [| constructor]].
    + split; [vm_compute; reflexivity |]. split; [reflexivity |].
      intros _. apply not_marked_active. cbn [line_path String.length]. lia.
    + split; [vm_compute; reflexivity |]. split; [reflexivity |].
      discriminate.
  - eexists. split; [reflexivity |].
    constructor; [| constructor; [| constructor]];
      eexists; (split; [reflexivity |]); split; vm_compute; reflexivity.
Defined.

(** ** The two request steps compared *)

(** X14. The ordered request step is the stronger one: whenever "The
    requests should be:" passes, "The unordered requests should be:"
    passes on the same requests and text; and either step can only pass
    if the server has received as many requests as the text has lines. *)
Theorem ordered_requests_imply_unordered (actual : list conftest.Request)
    (pages : string) :
  (conftest.list_of_requests actual pages = conftest.passed ->
   conftest.list_of_requests_unordered actual pages = conftest.passed)
  /\ (conftest.list_of_requests_unordered actual pages = conftest.passed ->
      length actual = length (conftest.split_lines pages)).
Proof.
  unfold conftest.list_of_requests, conftest.list_of_requests_unordered.
  cbv zeta. split.
  - destruct (conftest.list_eq _ _ _) eqn:Heq; [| discriminate].
    intros _. apply list_eq_request_eq in Heq. rewrite Heq.
    rewrite bool_decide_true; reflexivity.
  - case_bool_decide as Hcount; [| discriminate]. intros _.
    apply Counter_eq_iff_Permutation, Permutation_length in Hcount.
    unfold conftest.expected_requests in Hcount.
    rewrite !length_map in Hcount. exact Hcount.
Qed.

Lemma ordered_requests_imply_unordered_witness :
  conftest.list_of_requests_unordered
    [conftest.mkRequest "GET" "/a" 200] "a" = conftest.passed.
Proof.
  apply (proj1 (ordered_requests_imply_unordered
                  [conftest.mkRequest "GET" "/a" 200] "a")).
  reflexivity.
Defined.

(** ** More on the zoom *)

(** X15. [set_default] applies the configured default zoom to the widget
    and leaves the zoom object as it is.  So a zoom that [set_factor] has
    marked as changed is still marked after [set_default], and the next
    change of a zoom setting does not reach the widget. *)
Theorem set_default_keeps_zoom_marked (self : AbstractZoom.t)
    (cfg cfg' : AbstractZoom.Config) (default : PyFloat.t)
    (factor : PyFloat.t) (fuzzyval : bool) (option : string) :
  AbstractZoom.percent_factor (AbstractZoom.default_zoom cfg) = Ok default ->
  AbstractZoom.set_default cfg self
  = (Ok tt, self, [AbstractZoom._set_factor_internal default])
  /\ (Py.outcome (AbstractZoom.set_factor factor fuzzyval self) = Ok tt ->
      is_zoom_setting "ui" option ->
      let zoomed := Py.final (AbstractZoom.set_factor factor fuzzyval self) in
      let reset := Py.final (AbstractZoom.set_default cfg zoomed) in
      AbstractZoom._default_zoom_changed reset = true
      /\ Py.sent (AbstractZoom._on_config_changed cfg' "ui" option reset) = []).
Proof.
  intros Hdefault.
  assert (Hrun : forall z, AbstractZoom.set_default cfg z
                 = (Ok tt, z, [AbstractZoom._set_factor_internal default])).
  { intros z. unfold AbstractZoom.set_default, AbstractZoom.lift. py_unfold.
    rewrite Hdefault. reflexivity. }
  split; [apply Hrun |].
  intros Hok Hopt. cbv zeta. rewrite Hrun. cbn [Py.final fst snd].
  destruct (set_factor_marks_changed self factor fuzzyval Hok) as (Hflag & _).
  split; [exact Hflag |].
  rewrite (zoom_setting_changed_runs cfg' "ui" option _ Hopt), Hflag.
  reflexivity.
Qed.

Lemma set_default_keeps_zoom_marked_witness :
  AbstractZoom.set_default example_config example_zoom
  = (Ok tt, example_zoom, [AbstractZoom._set_factor_internal one]).
Proof.
  refine (proj1 (set_default_keeps_zoom_marked example_zoom example_config
                   example_config one one_and_half true "zoom-levels" _)).
  reflexivity.
Defined.

Lemma config_changes_step (cfg : AbstractZoom.Config) (option : string)
    (later : list (AbstractZoom.Config * string)) (self : AbstractZoom.t)
    (factor : PyFloat.t) :
  is_zoom_setting "ui" option ->
  AbstractZoom._default_zoom_changed self = false ->
  AbstractZoom.percent_factor (AbstractZoom.default_zoom cfg) = Ok factor ->
  config_changes ((cfg, option) :: later) self
  = let r := config_changes later
               (AbstractZoom.__init__ cfg (AbstractZoom._win_id self)) in
    (Py.outcome r, Py.final r,
     AbstractZoom._set_factor_internal factor :: Py.sent r).
Proof.
  intros Hopt Hflag Hfactor. cbn [config_changes]. unfold Py.bind.
  rewrite (zoom_setting_changed_runs cfg "ui" option self Hopt).
  rewrite Hflag, Hfactor. cbv zeta.
  destruct (config_changes later _) as [[r2 self2] out2]. reflexivity.
Qed.

(** X16. A zoom that has not been changed from the default follows the
    configuration: over any sequence of changes to the zoom settings
    (with defaults that can be converted), every change applies its
    configured default zoom to the widget, in order, and the zoom ends in
    the state of one newly constructed under the last configuration. *)
Theorem unchanged_zoom_follows_config
    (changes : list (AbstractZoom.Config * string)) :
  forall self : AbstractZoom.t,
  AbstractZoom._default_zoom_changed self = false ->
  Forall (fun change =>
            is_zoom_setting "ui" change.2
            /\ exists factor,
                 AbstractZoom.percent_factor
                   (AbstractZoom.default_zoom change.1) = Ok factor)
         changes ->
  let r := config_changes changes self in
  Py.outcome r = Ok tt
  /\ Py.final r
     = match last changes with
       | Some change =>
           AbstractZoom.__init__ change.1 (AbstractZoom._win_id self)
       | None => self
       end
  /\ map (fun e => Ok (applied_factor e)) (Py.sent r)
     = map (fun change =>
              AbstractZoom.percent_factor (AbstractZoom.default_zoom change.1))
           changes.
Proof.
  cbv zeta.
  induction changes as [| [cfg option] later IH]; intros self Hflag Hall.
  - repeat split.
  - apply Forall_cons in Hall as [[Hopt [factor Hfactor]] Hlater].
    cbn [fst snd] in Hopt, Hfactor.
    rewrite (config_changes_step cfg option later self factor Hopt Hflag Hfactor).
    cbv zeta.
    specialize (IH (AbstractZoom.__init__ cfg (AbstractZoom._win_id self))
                  eq_refl Hlater).
    destruct (config_changes later _) as [[r2 self2] out2].
    cbn [Py.outcome Py.final Py.sent fst snd] in *.
    destruct IH as (-> & -> & Hsent).
    split; [reflexivity |]. split.
    + rewrite last_cons. destruct (last later); reflexivity.
    + cbn [map applied_factor fst]. rewrite Hsent, Hfactor. reflexivity.
Qed.

Lemma unchanged_zoom_follows_config_witness :
  Py.final (config_changes [(example_config, "zoom-levels");
                            (example_config, "default-zoom")]
              (AbstractZoom.__init__ example_config 4))
  = AbstractZoom.__init__ example_config 4.
Proof.
  refine (proj1 (proj2 (unchanged_zoom_follows_config
                          [(example_config, "zoom-levels");
                           (example_config, "default-zoom")]
                          (AbstractZoom.__init__ example_config 4) eq_refl _))).
  apply Forall_cons. split.
  - split; [split; [reflexivity | left; reflexivity] |].
    exists one. reflexivity.
  - apply Forall_cons. split; [| constructor].
    split; [split; [reflexivity | right; reflexivity] |].
    exists one. reflexivity.
Defined.

(** ** What the request steps can accept *)

Lemma expected_requests_are_GET (pages : string) :
  Forall (fun e => conftest.verb e = "GET"
                   /\ String.prefix "/" (conftest.path e) = true)
         (conftest.expected_requests pages).
Proof.
  unfold conftest.expected_requests. apply Forall_map, Forall_forall.
  intros p _. cbn. split; [reflexivity |].
  destruct (conftest.strip p); reflexivity.
Qed.

(** X17. Both request steps can only be satisfied by [GET] requests: if
    "The requests should be:" or "The unordered requests should be:"
    passes, every request the server has received is a [GET] for a path
    that begins with a slash. *)
Theorem request_steps_accept_only_GET (actual : list conftest.Request)
    (pages : string) :
  conftest.list_of_requests actual pages = conftest.passed
  \/ conftest.list_of_requests_unordered actual pages = conftest.passed ->
  Forall (fun r => conftest.req_verb r = "GET"
                   /\ String.prefix "/" (conftest.req_path r) = true)
         actual.
Proof.
  pose proof (expected_requests_are_GET pages) as Hexpected.
  unfold conftest.list_of_requests, conftest.list_of_requests_unordered.
  cbv zeta. intros Hpass.
  assert (Hperm : map conftest.from_request actual
                  ≡ₚ conftest.expected_requests pages).
  { destruct Hpass as [Hordered | Hunordered].
    - destruct (conftest.list_eq _ _ _) eqn:Heq; [| discriminate].
      apply list_eq_request_eq in Heq. rewrite Heq. reflexivity.
    - case_bool_decide as Hcount; [| discriminate].
      apply Counter_eq_iff_Permutation, Hcount. }
  rewrite <- Hperm in Hexpected.
  apply Forall_map in Hexpected.
  eapply Forall_impl; [exact Hexpected |]. cbn. tauto.
Qed.

Lemma request_steps_accept_only_GET_witness :
  Forall (fun r => conftest.req_verb r = "GET"
                   /\ String.prefix "/" (conftest.req_path r) = true)
         [conftest.mkRequest "GET" "/a" 200].
Proof.
  apply (request_steps_accept_only_GET [conftest.mkRequest "GET" "/a" 200] "a").
  left. reflexivity.
Defined.
